(** * paper_trading_bot.py: signal engine, paper-trade simulator and dashboard loop

    A shallow embedding of [src/paper_trading_bot.py].  Prices, balances and
    holdings are Python floats, i.e. IEEE 754 binary64 values, and are modelled
    by Rocq's primitive floats, so every arithmetic step of the model rounds
    exactly as the program does.  Methods that read and write [self] are
    functions in a small state-and-exception monad: a raised exception keeps
    the state reached so far, as in Python.  The integer literals the
    program mixes with floats ([230], [0], [1], [8], [16], [100]) are
    converted exactly, so they appear as the floats of the same value; the
    two counters are unbounded integers that only grow, hence [nat]. *)

From Stdlib Require Import List String ZArith Lia Bool Arith.
From Stdlib Require Import Floats.
Import ListNotations.

Set Warnings "-inexact-float".

(** ** The fragment of the Python runtime the program relies on *)

Module Py.

Inductive exn : Type :=
| NameError (name : string)
| UnboundLocalError (name : string)
| ZeroDivisionError
| IndexError
| TypeError.

Inductive result (A : Type) : Type :=
| Ok (a : A)
| Raise (e : exn).
Arguments Ok {A} a.
Arguments Raise {A} e.

(** A computation over a mutable object of type [S]. *)
Definition M (S A : Type) : Type := S -> result A * S.

Definition ret {S A} (a : A) : M S A := fun s => (Ok a, s).
Definition raise {S A} (e : exn) : M S A := fun s => (Raise e, s).
Definition lift {S A} (r : result A) : M S A := fun s => (r, s).
Definition bind {S A B} (c : M S A) (k : A -> M S B) : M S B :=
  fun s => match c s with
           | (Ok a, s') => k a s'
           | (Raise e, s') => (Raise e, s')
           end.
Definition get {S} : M S S := fun s => (Ok s, s).
Definition modify {S} (f : S -> S) : M S unit := fun s => (Ok tt, f s).

(** [x > y] and [x < y] on floats; both are false when an operand is NaN. *)
Definition gt (x y : float) : bool := PrimFloat.ltb y x.
Definition lt (x y : float) : bool := PrimFloat.ltb x y.

(** [x / y]: Python raises on a zero divisor (of either sign) where IEEE
    arithmetic would return an infinity or NaN. *)
Definition div (x y : float) : result float :=
  if PrimFloat.eqb y 0%float then Raise ZeroDivisionError
  else Ok (PrimFloat.div x y).

(** [l[-1]]. *)
Fixpoint last_item {A} (l : list A) : result A :=
  match l with
  | [] => Raise IndexError
  | [x] => Ok x
  | _ :: r => last_item r
  end.

(** [l[-n:]]: the last [n] items, or all of [l] when it is shorter. *)
Definition lastn {A} (n : nat) (l : list A) : list A :=
  skipn (List.length l - n) l.

(** [sum(l)]: left-to-right accumulation starting from [0], as CPython
    up to 3.11 computes it.  Later versions compensate the rounding error
    and may differ in the last bits; the properties below use the two
    averages only through the comparisons made on them. *)
Definition fsum (l : list float) : float :=
  fold_left PrimFloat.add l 0%float.

(** Truth value of what [get_price] returns: [None] and zero are false. *)
Definition truthy (price : option float) : bool :=
  match price with
  | Some p => negb (PrimFloat.eqb p 0%float)
  | None => false
  end.

(** Objects a global name can be bound to.  Only floats take part in
    arithmetic and ordering; the rest raise [TypeError] there. *)
Inductive object : Type :=
| Float (f : float)
| Module_
| Class_
| Function_
| Instance_.

Definition namespace : Type := list (string * object).

Fixpoint lookup (g : namespace) (name : string) : result object :=
  match g with
  | [] => Raise (NameError name)
  | (n, v) :: g' => if String.eqb n name then Ok v else lookup g' name
  end.

Definition as_float (v : object) : result float :=
  match v with
  | Float f => Ok f
  | _ => Raise TypeError
  end.

End Py.

Import Py.

Declare Scope py_scope.
Delimit Scope py_scope with py.
Notation "x <- c ;; k" := (bind c (fun x => k))
  (at level 61, c at next level, right associativity) : py_scope.
Notation "c ;; k" := (bind c (fun _ => k))
  (at level 61, right associativity) : py_scope.
Open Scope py_scope.

(** ** class TradeEngine *)

Record TradeEngine : Type := mkTradeEngine {
  prices : list float;
  last_buy_price : option float   (* [None] until the first BUY signal *)
}.

Definition TradeEngine_init : TradeEngine :=
  {| prices := []; last_buy_price := None |}.

Definition update_price (price : float) : M TradeEngine unit :=
  modify (fun self => {| prices := prices self ++ [price];
                         last_buy_price := last_buy_price self |}) ;;
  self <- get ;;
  if 50 <? List.length (prices self) then
    modify (fun self => {| prices := tl (prices self);
                           last_buy_price := last_buy_price self |})
  else ret tt.

Definition generate_signal : M TradeEngine string :=
  self <- get ;;
  if List.length (prices self) <? 16 then ret "HOLD"%string
  else
    let short_ema := PrimFloat.div (fsum (lastn 8 (prices self))) 8%float in
    let long_ema := PrimFloat.div (fsum (lastn 16 (prices self))) 16%float in
    buy <- (if gt short_ema long_ema then
              match last_buy_price self with
              | None => ret true
              | Some lbp =>
                  latest <- lift (last_item (prices self)) ;;
                  ret (gt latest (PrimFloat.mul lbp 1.001%float))
              end
            else ret false) ;;
    if buy : bool then
      latest <- lift (last_item (prices self)) ;;
      modify (fun self => {| prices := prices self;
                             last_buy_price := Some latest |}) ;;
      ret "BUY"%string
    else if lt short_ema long_ema then ret "SELL"%string
    else ret "HOLD"%string.

(** ** class PaperTradeSimulator *)

(** A ledger entry: the tuple [("BUY", price, holdings, balance)] or
    [("SELL", price, proceeds, balance, profit)]. *)
Inductive trade : Type :=
| BuyTrade (price held balance_after : float)
| SellTrade (price proceeds balance_after profit : float).

(** [t[0]], [t[1]] and [t[3]]. *)
Definition trade_side (t : trade) : string :=
  match t with
  | BuyTrade _ _ _ => "BUY"
  | SellTrade _ _ _ _ => "SELL"
  end.

Definition trade_price (t : trade) : float :=
  match t with
  | BuyTrade p _ _ => p
  | SellTrade p _ _ _ => p
  end.

Definition trade_balance (t : trade) : float :=
  match t with
  | BuyTrade _ _ b => b
  | SellTrade _ _ b _ => b
  end.

Record PaperTradeSimulator : Type := mkSimulator {
  balance : float;
  holdings : float;
  trade_history : list trade;
  wins : nat;
  losses : nat
}.

Definition PaperTradeSimulator_init (initial_balance : float)
  : PaperTradeSimulator :=
  {| balance := initial_balance; holdings := 0%float; trade_history := [];
     wins := 0; losses := 0 |}.

Definition set_balance (b : float) (self : PaperTradeSimulator) :=
  {| balance := b; holdings := holdings self;
     trade_history := trade_history self;
     wins := wins self; losses := losses self |}.

Definition set_holdings (h : float) (self : PaperTradeSimulator) :=
  {| balance := balance self; holdings := h;
     trade_history := trade_history self;
     wins := wins self; losses := losses self |}.

Definition append_trade (t : trade) (self : PaperTradeSimulator) :=
  {| balance := balance self; holdings := holdings self;
     trade_history := trade_history self ++ [t];
     wins := wins self; losses := losses self |}.

Definition incr_wins (self : PaperTradeSimulator) :=
  {| balance := balance self; holdings := holdings self;
     trade_history := trade_history self;
     wins := wins self + 1; losses := losses self |}.

Definition incr_losses (self : PaperTradeSimulator) :=
  {| balance := balance self; holdings := holdings self;
     trade_history := trade_history self;
     wins := wins self; losses := losses self + 1 |}.

(** The three strings [execute_trade] returns:
    ["BUY executed at <price>"], ["SELL executed at <price>"] and
    ["No trade executed"]. *)
Inductive trade_message : Type :=
| BuyExecuted (price : float)
| SellExecuted (price : float)
| NoTradeExecuted.

(** [execute_trade] reads [short_ema] and [long_ema], which are neither
    parameters nor locals of the method: Python resolves them in the global
    namespace [g] at the moment the second operand of [or] is evaluated.
    The [print] calls write to the terminal only and are left out. *)
Definition execute_trade (g : namespace) (signal : string) (price : float)
  : M PaperTradeSimulator trade_message :=
  self <- get ;;
  if String.eqb signal "BUY" && gt (balance self) 0%float then
    let allocation := PrimFloat.mul (balance self) 0.75%float in
    h <- lift (div allocation price) ;;
    modify (set_holdings h) ;;
    modify (fun self => set_balance (PrimFloat.sub (balance self) allocation) self) ;;
    modify (fun self => append_trade (BuyTrade price (holdings self) (balance self)) self) ;;
    ret (BuyExecuted price)
  else if String.eqb signal "SELL" && gt (holdings self) 0%float then
    let proceeds := PrimFloat.mul (holdings self) price in
    entry <- lift (last_item (trade_history self)) ;;
    let buy_price := trade_price entry in
    let profit := PrimFloat.sub proceeds (PrimFloat.mul buy_price (holdings self)) in
    ratio <- lift (div (PrimFloat.sub price buy_price) buy_price) ;;
    let profit_percent := PrimFloat.mul ratio 100%float in
    sell <- (if gt profit_percent 1%float then ret true
             else
               short_ema <- lift (lookup g "short_ema") ;;
               long_ema <- lift (lookup g "long_ema") ;;
               l <- lift (as_float long_ema) ;;
               s <- lift (as_float short_ema) ;;
               ret (lt s (PrimFloat.mul l 0.999%float))) ;;
    if sell : bool then
      modify (fun self => set_balance (PrimFloat.add (balance self) proceeds) self) ;;
      modify (set_holdings 0%float) ;;
      modify (fun self => append_trade (SellTrade price proceeds (balance self) profit) self) ;;
      (if gt profit 0%float then modify incr_wins else modify incr_losses) ;;
      ret (SellExecuted price)
    else ret NoTradeExecuted
  else ret NoTradeExecuted.

Definition get_balance : M PaperTradeSimulator float :=
  self <- get ;; ret (balance self).

Definition get_trade_summary : M PaperTradeSimulator (nat * nat * nat) :=
  self <- get ;; ret (wins self, losses self, List.length (trade_history self)).

(** ** The module's global namespace

    The names bound at module level when [trade_dashboard] runs: the four
    imports, the three classes, the function, and the three instances.
    Nothing binds [short_ema] or [long_ema] (nor do the builtins). *)
Definition module_globals : namespace :=
  [ ("time", Module_); ("pd", Module_); ("requests", Module_);
    ("curses", Module_);
    ("MarketDataHandler", Class_); ("TradeEngine", Class_);
    ("PaperTradeSimulator", Class_);
    ("trade_dashboard", Function_);
    ("market", Instance_); ("strategy", Instance_); ("simulator", Instance_) ]%string.

(** ** class MarketDataHandler *)

(** What the body of [get_price]'s [try] does on one call: the HTTP request,
    the JSON decoding and [float(...)] either yield an amount or raise. *)
Inductive fetch_outcome : Type :=
| Fetched (amount : float)
| FetchRaised.

(** [get_price]: the [except Exception] clause turns every failure into
    [None]. *)
Definition get_price (o : fetch_outcome) : option float :=
  match o with
  | Fetched amount => Some amount
  | FetchRaised => None
  end.

(** ** trade_dashboard *)

(** What one pass of the loop body writes before [stdscr.refresh()]: the
    values behind each line.  The win-rate line is [shown_wins] over
    [shown_total] once more, written only when [shown_total > 0]. *)
Record frame : Type := mkFrame {
  shown_price : float;
  shown_balance : float;
  shown_holdings : float;
  shown_total : nat;
  shown_wins : nat;
  shown_losses : nat;
  shown_trades : list (string * float * float);
  shown_status : trade_message
}.

(** What the outside world supplies to one pass of the loop: the outcome of
    the price request and whether [getch()] returned [ord("q")]. *)
Record tick : Type := mkTick {
  fetched : fetch_outcome;
  quit_key : bool
}.

(** The objects the loop works on, its local variable [trade_message]
    ([None] while it is unbound) and the frames refreshed so far. *)
Record dashboard : Type := mkDashboard {
  strategy : TradeEngine;
  simulator : PaperTradeSimulator;
  trade_message_var : option trade_message;
  screen : list frame
}.

Definition dashboard_init (initial_balance : float) : dashboard :=
  {| strategy := TradeEngine_init;
     simulator := PaperTradeSimulator_init initial_balance;
     trade_message_var := None;
     screen := [] |}.

(** Run a method of [strategy] / [simulator] on the object held by the loop. *)
Definition on_strategy {A} (c : M TradeEngine A) : M dashboard A :=
  fun d => let (r, e) := c (strategy d) in
           (r, {| strategy := e; simulator := simulator d;
                  trade_message_var := trade_message_var d;
                  screen := screen d |}).

Definition on_simulator {A} (c : M PaperTradeSimulator A) : M dashboard A :=
  fun d => let (r, s) := c (simulator d) in
           (r, {| strategy := strategy d; simulator := s;
                  trade_message_var := trade_message_var d;
                  screen := screen d |}).

Definition assign_trade_message (m : trade_message) : M dashboard unit :=
  modify (fun d => {| strategy := strategy d; simulator := simulator d;
                      trade_message_var := Some m; screen := screen d |}).

Definition refresh (f : frame) : M dashboard unit :=
  modify (fun d => {| strategy := strategy d; simulator := simulator d;
                      trade_message_var := trade_message_var d;
                      screen := screen d ++ [f] |}).

(** [f"{price:.2f}"]: [None] does not accept a format specification. *)
Definition format_price (price : option float) : result float :=
  match price with
  | Some p => Ok p
  | None => Raise TypeError
  end.

(** Reading the local variable [trade_message]. *)
Definition read_trade_message : M dashboard trade_message :=
  d <- get ;;
  match trade_message_var d with
  | Some m => ret m
  | None => raise (UnboundLocalError "trade_message")
  end.

(** The "Draw UI" part of the loop body, in the order of its statements. *)
Definition draw_ui (price : option float) : M dashboard unit :=
  p <- lift (format_price price) ;;
  b <- on_simulator get_balance ;;
  sim <- on_simulator get ;;
  summary <- on_simulator get_trade_summary ;;
  let '(w, l, total) := summary in
  let recent := map (fun t => (trade_side t, trade_price t, trade_balance t))
                    (lastn 5 (trade_history sim)) in
  status <- read_trade_message ;;
  refresh {| shown_price := p; shown_balance := b;
             shown_holdings := holdings sim;
             shown_total := total; shown_wins := w; shown_losses := l;
             shown_trades := recent; shown_status := status |}.

(** How a run of the loop over a finite supply of ticks ends when no
    exception escapes: the user pressed [q], or the supply is used up with
    the loop still going. *)
Inductive loop_end : Type :=
| Quit
| StillRunning.

Fixpoint trade_dashboard (g : namespace) (world : list tick)
  : M dashboard loop_end :=
  match world with
  | [] => ret StillRunning
  | t :: world' =>
      let price := get_price (fetched t) in
      (if truthy price then
         match price with
         | Some p =>
             on_strategy (update_price p) ;;
             signal <- on_strategy generate_signal ;;
             m <- on_simulator (execute_trade g signal p) ;;
             assign_trade_message m
         | None => ret tt
         end
       else ret tt) ;;
      draw_ui price ;;
      if quit_key t then ret Quit else trade_dashboard g world'
  end.

(** ** Runs of calls, used to state properties over sequences *)

(** [update_price] as a function on the engine, and a batch of them. *)
Definition observe (self : TradeEngine) (price : float) : TradeEngine :=
  snd (update_price price self).

Definition observe_all (self : TradeEngine) (ps : list float) : TradeEngine :=
  fold_left observe ps self.

(** A boolean test that the items of a list are pairwise different numbers
    (and none is NaN), and the prices [1.0, 2.0, ..., n] as sample data. *)
Fixpoint distinctb (l : list float) : bool :=
  match l with
  | [] => true
  | x :: r =>
      PrimFloat.eqb x x && negb (existsb (PrimFloat.eqb x) r) && distinctb r
  end.

Definition ramp (n : nat) : list float :=
  map (fun k => PrimFloat.of_uint63 (Uint63.of_Z (Z.of_nat k))) (seq 1 n).

(** A caller may interleave the two methods of the engine in any order. *)
Inductive engine_call : Type :=
| Observe (price : float)
| Evaluate.

(** One call: the signal it returned, if it was [generate_signal], and the
    engine afterwards. *)
Definition engine_step (c : engine_call) (self : TradeEngine)
  : option (result string) * TradeEngine :=
  match c with
  | Observe p => (None, observe self p)
  | Evaluate => let (r, self') := generate_signal self in (Some r, self')
  end.

Fixpoint engine_run (cs : list engine_call) (self : TradeEngine)
  : list (result string) * TradeEngine :=
  match cs with
  | [] => ([], self)
  | c :: cs' =>
      let (o, self') := engine_step c self in
      let (sigs, final) := engine_run cs' self' in
      (match o with Some r => r :: sigs | None => sigs end, final)
  end.

(** The latest observed price, when there is one, is at most [bound]. *)
Definition latest_le (bound : float) (self : TradeEngine) : bool :=
  match last_item (prices self) with
  | Ok latest => PrimFloat.leb latest bound
  | Raise _ => true
  end.

(** Every [generate_signal] of the run is made while the latest observed
    price is at most [bound]. *)
Fixpoint evaluated_below (bound : float) (cs : list engine_call)
  (self : TradeEngine) : bool :=
  match cs with
  | [] => true
  | c :: cs' =>
      match c with
      | Evaluate => latest_le bound self
      | Observe _ => true
      end
      && evaluated_below bound cs' (snd (engine_step c self))
  end.

(** The three ways a call can end.  [generate_signal] never raises: the
    window holds at least 16 prices whenever [prices[-1]] is read. *)
Inductive signal_case (self : TradeEngine)
  : result string * TradeEngine -> Prop :=
| case_hold : signal_case self (Ok "HOLD"%string, self)
| case_sell :
    16 <= List.length (prices self) ->
    signal_case self (Ok "SELL"%string, self)
| case_buy latest :
    16 <= List.length (prices self) ->
    last_item (prices self) = Ok latest ->
    (forall lbp, last_buy_price self = Some lbp ->
                 gt latest (PrimFloat.mul lbp 1.001%float) = true) ->
    signal_case self
      (Ok "BUY"%string,
       {| prices := prices self; last_buy_price := Some latest |}).

(** Sample run: a fresh engine observes 1.0 .. 16.0 and evaluates, which
    emits BUY at 16.0; then two more ticks follow that stay within 0.1 % of
    that price. *)
Definition engine_after_buy : TradeEngine :=
  snd (engine_run (map Observe (ramp 16) ++ [Evaluate]) TradeEngine_init).

Definition quiet_ticks : list engine_call :=
  [Observe 16.01%float; Evaluate; Observe 15.5%float; Evaluate].

(** ** Reachable portfolios and ledger bookkeeping *)

(** The ways a call of [execute_trade] can end, with the portfolio it leaves.
    An exception always leaves the portfolio as it was: every statement that
    can raise comes before the first assignment to [self]. *)
Inductive trade_case (signal : string) (price : float)
  (self : PaperTradeSimulator)
  : result trade_message * PaperTradeSimulator -> Prop :=
| case_bought :
    signal = "BUY"%string ->
    gt (balance self) 0%float = true ->
    PrimFloat.eqb price 0%float = false ->
    let allocation := PrimFloat.mul (balance self) 0.75%float in
    trade_case signal price self
      (Ok (BuyExecuted price),
       {| balance := PrimFloat.sub (balance self) allocation;
          holdings := PrimFloat.div allocation price;
          trade_history :=
            trade_history self ++
            [BuyTrade price (PrimFloat.div allocation price)
                      (PrimFloat.sub (balance self) allocation)];
          wins := wins self; losses := losses self |})
| case_sold entry :
    signal = "SELL"%string ->
    gt (holdings self) 0%float = true ->
    last_item (trade_history self) = Ok entry ->
    PrimFloat.eqb (trade_price entry) 0%float = false ->
    let proceeds := PrimFloat.mul (holdings self) price in
    let profit :=
      PrimFloat.sub proceeds (PrimFloat.mul (trade_price entry) (holdings self)) in
    trade_case signal price self
      (Ok (SellExecuted price),
       {| balance := PrimFloat.add (balance self) proceeds;
          holdings := 0%float;
          trade_history :=
            trade_history self ++
            [SellTrade price proceeds (PrimFloat.add (balance self) proceeds)
                       profit];
          wins := if gt profit 0%float then wins self + 1 else wins self;
          losses := if gt profit 0%float then losses self
                    else losses self + 1 |})
| case_no_trade :
    trade_case signal price self (Ok NoTradeExecuted, self)
| case_raised e :
    trade_case signal price self (Raise e, self).

(** Portfolios the program can be in: the constructor's result for a positive
    initial balance, and whatever [execute_trade] leaves behind, whichever
    signal and price it is called with. *)
Inductive reachable : PaperTradeSimulator -> Prop :=
| reach_init (initial_balance : float) :
    gt initial_balance 0%float = true ->
    reachable (PaperTradeSimulator_init initial_balance)
| reach_execute (g : namespace) (signal : string) (price : float)
    (self : PaperTradeSimulator) :
    reachable self ->
    reachable (snd (execute_trade g signal price self)).

Definition count_side (side : string) (history : list trade) : nat :=
  List.length (filter (fun t => String.eqb (trade_side t) side) history).

(** Sample portfolios: a fresh one with the default balance, and the one left
    by a BUY at 100.0 from it (balance 57.5, holdings 1.725). *)
Definition fresh_portfolio : PaperTradeSimulator :=
  PaperTradeSimulator_init 230%float.

Definition portfolio_after_buy : PaperTradeSimulator :=
  {| balance := 57.5%float; holdings := 1.725%float;
     trade_history := [BuyTrade 100%float 1.725%float 57.5%float];
     wins := 0; losses := 0 |}.

(** A portfolio whose whole balance is gone. *)
Definition broke_portfolio : PaperTradeSimulator :=
  {| balance := 0%float; holdings := 2%float;
     trade_history := [BuyTrade 100%float 2%float 0%float];
     wins := 0; losses := 0 |}.

(** Holdings are zero, or the ledger ends with the BUY that produced them. *)
Definition position_open_by_buy (self : PaperTradeSimulator) : Prop :=
  holdings self = 0%float
  \/ exists price held bal,
       last_item (trade_history self) = Ok (BuyTrade price held bal).

Definition counters_match_ledger (self : PaperTradeSimulator) : Prop :=
  wins self + losses self = count_side "SELL" (trade_history self).

(** The portfolio after the BUY at 100.0 and a SELL at 102.0. *)
Definition portfolio_after_sell : PaperTradeSimulator :=
  snd (execute_trade module_globals "SELL" 102%float portfolio_after_buy).

(** Sample feeds for the loop: every request succeeds and nobody presses
    [q].  [flat_then_dip] is eight ticks at 100.0, eight at 100.1 and five at
    100.0; [steady_rise] is 1.0, 2.0, ..., 17.0. *)
Definition feed (ps : list float) : list tick :=
  map (fun p => {| fetched := Fetched p; quit_key := false |}) ps.

Definition flat_then_dip : list tick :=
  feed (repeat 100%float 8 ++ repeat 100.1%float 8 ++ repeat 100%float 5).

Definition steady_rise : list tick := feed (ramp 17).

(** ** Further vocabulary for the properties of the whole program *)

(** The two averages [generate_signal] computes as locals once the window
    holds 16 prices. *)
Definition short_ema (self : TradeEngine) : float :=
  PrimFloat.div (fsum (lastn 8 (prices self))) 8%float.

Definition long_ema (self : TradeEngine) : float :=
  PrimFloat.div (fsum (lastn 16 (prices self))) 16%float.

(** The prices a run of calls hands to [update_price], in order. *)
Fixpoint observed (cs : list engine_call) : list float :=
  match cs with
  | [] => []
  | Observe p :: cs' => p :: observed cs'
  | Evaluate :: cs' => observed cs'
  end.

(** The last ledger record mirrors the portfolio: its balance field is the
    current balance; after a BUY its holdings field is the current holdings
    and its price is not zero; after a SELL, and while the ledger is empty,
    holdings are zero. *)
Definition ledger_consistent (self : PaperTradeSimulator) : Prop :=
  match last_item (trade_history self) with
  | Ok (BuyTrade p held bal) =>
      held = holdings self /\ bal = balance self
      /\ PrimFloat.eqb p 0%float = false
  | Ok (SellTrade _ _ bal _) =>
      holdings self = 0%float /\ bal = balance self
  | Raise _ => holdings self = 0%float
  end.

(** SELL records never outnumber BUY records, and are strictly fewer while
    a position may be open. *)
Definition sells_behind_buys (self : PaperTradeSimulator) : Prop :=
  (holdings self = 0%float
   /\ count_side "SELL" (trade_history self)
      <= count_side "BUY" (trade_history self))
  \/ count_side "SELL" (trade_history self)
     < count_side "BUY" (trade_history self).

(** The frame a pass of the loop draws for a price, a portfolio and a status
    message: the values [draw_ui] reads, in the order it writes them. *)
Definition frame_of (price : float) (sim : PaperTradeSimulator)
  (status : trade_message) : frame :=
  {| shown_price := price;
     shown_balance := balance sim;
     shown_holdings := holdings sim;
     shown_total := List.length (trade_history sim);
     shown_wins := wins sim;
     shown_losses := losses sim;
     shown_trades :=
       map (fun t => (trade_side t, trade_price t, trade_balance t))
           (lastn 5 (trade_history sim));
     shown_status := status |}.

(** What the loop does after the body of a pass: stop on [q], else go on
    with the ticks that are left. *)
Definition after_tick (g : namespace) (t : tick) (world : list tick)
  : M dashboard loop_end :=
  if quit_key t then ret Quit else trade_dashboard g world.

(** Sample state of the loop: after the first 20 ticks of [flat_then_dip],
    holding the units bought on tick 16. *)
Definition dashboard_before_dip : dashboard :=
  snd (trade_dashboard module_globals (firstn 20 flat_then_dip)
         (dashboard_init 230%float)).

(** Every price of the list is different from zero, i.e. true to [if price]. *)
Definition all_truthy (ps : list float) : bool :=
  forallb (fun p => truthy (Some p)) ps.

(** The price request of a tick succeeded. *)
Definition fetched_ok (t : tick) : Prop :=
  exists p, fetched t = Fetched p.

(** * Properties *)

(** ** Facts about float comparison *)

Section FloatOrder.

Lemma SFcompare_swap (x y : spec_float) :
  SFcompare y x = option_map CompOpp (SFcompare x y).
Proof.
  destruct x as [[]|[]| |[] mx ex], y as [[]|[]| |[] my ey];
    simpl; try reflexivity;
    rewrite (Z.compare_antisym ex ey); destruct (Z.compare ex ey);
    simpl; try reflexivity;
    fold (Pos.compare my mx); fold (Pos.compare mx my);
    rewrite (Pos.compare_antisym mx my); destruct (Pos.compare mx my);
    reflexivity.
Qed.

Lemma leb_not_gt (x y : float) :
  PrimFloat.leb x y = true -> gt x y = false.
Proof.
  unfold gt. rewrite leb_spec, ltb_spec. unfold SFleb, SFltb.
  rewrite (SFcompare_swap (Prim2SF x)).
  destruct (SFcompare (Prim2SF x) (Prim2SF y)) as [[]|]; simpl; congruence.
Qed.

Lemma eqb_not_gt (x y : float) :
  PrimFloat.eqb x y = true -> gt x y = false.
Proof.
  unfold gt. rewrite eqb_spec, ltb_spec. unfold SFeqb, SFltb.
  rewrite (SFcompare_swap (Prim2SF x)).
  destruct (SFcompare (Prim2SF x) (Prim2SF y)) as [[]|]; simpl; congruence.
Qed.

End FloatOrder.

(** ** Lists as Python uses them *)

Section PyLists.
Context {A : Type}.

Lemma last_item_app (l : list A) (x : A) : last_item (l ++ [x]) = Ok x.
Proof.
  induction l as [|a l IH]; [reflexivity|].
  simpl. destruct (l ++ [x]) eqn:E; [destruct l; discriminate|exact IH].
Qed.

Lemma last_item_nonempty (l : list A) :
  l <> [] -> exists x, last_item l = Ok x.
Proof.
  intros H. destruct (exists_last H) as (l' & x & ->).
  exists x. apply last_item_app.
Qed.

Lemma last_item_Ok (l : list A) (x : A) :
  last_item l = Ok x -> exists l', l = l' ++ [x].
Proof.
  destruct l as [|a l]; [discriminate|].
  destruct (@exists_last _ (a :: l)) as (l' & y & E); [discriminate|].
  rewrite E, last_item_app. intros [= ->]. now exists l'.
Qed.

End PyLists.

Lemma lookup_Raise (g : namespace) (name : string) (e : exn) :
  lookup g name = Raise e -> e = NameError name.
Proof.
  induction g as [|[n v] g IH]; simpl.
  - now intros [= <-].
  - destruct (String.eqb n name); [discriminate|exact IH].
Qed.

(** Unfolding the monad in a goal. *)
Ltac run := cbv beta iota delta [bind ret raise lift get modify].

(** ** TradeEngine.update_price *)

Lemma update_price_Ok (price : float) (self : TradeEngine) :
  fst (update_price price self) = Ok tt.
Proof.
  unfold update_price. run. simpl.
  destruct (50 <? _); reflexivity.
Qed.

Lemma observe_prices (self : TradeEngine) (price : float) :
  prices (observe self price) =
  if 50 <? List.length (prices self ++ [price])
  then tl (prices self ++ [price]) else prices self ++ [price].
Proof.
  unfold observe, update_price. run. simpl.
  destruct (50 <? _); reflexivity.
Qed.

Lemma observe_last_buy_price (self : TradeEngine) (price : float) :
  last_buy_price (observe self price) = last_buy_price self.
Proof.
  unfold observe, update_price. run. simpl.
  destruct (50 <? _); reflexivity.
Qed.

Lemma observe_length_le (self : TradeEngine) (price : float) :
  List.length (prices self) <= 50 ->
  List.length (prices (observe self price)) <= 50.
Proof.
  intros H. rewrite observe_prices.
  destruct (50 <? _) eqn:E.
  - destruct (prices self ++ [price]) eqn:El; simpl; [lia|].
    apply (f_equal (@List.length _)) in El.
    rewrite length_app in El. simpl in El. lia.
  - apply Nat.ltb_ge in E. exact E.
Qed.

Lemma observe_all_length_le (ps : list float) (self : TradeEngine) :
  List.length (prices self) <= 50 ->
  List.length (prices (observe_all self ps)) <= 50.
Proof.
  revert self. induction ps as [|p ps IH]; intros self H; simpl; [exact H|].
  apply IH, observe_length_le, H.
Qed.

Lemma observe_short (self : TradeEngine) (price : float) :
  List.length (prices self) < 50 ->
  prices (observe self price) = prices self ++ [price].
Proof.
  intros H. rewrite observe_prices.
  replace (50 <? _) with false; [reflexivity|].
  symmetry. apply Nat.ltb_ge. rewrite length_app. simpl. lia.
Qed.

Lemma observe_full (self : TradeEngine) (price : float) :
  List.length (prices self) = 50 ->
  prices (observe self price) = tl (prices self) ++ [price].
Proof.
  intros H. rewrite observe_prices.
  replace (50 <? _) with true.
  - destruct (prices self); [discriminate|reflexivity].
  - symmetry. apply Nat.ltb_lt. rewrite length_app. simpl. lia.
Qed.

(** Observing a batch that fits fills the window in order. *)
Lemma observe_all_fits (ps : list float) (self : TradeEngine) :
  List.length (prices self) + List.length ps <= 50 ->
  prices (observe_all self ps) = prices self ++ ps.
Proof.
  revert self. induction ps as [|p ps IH]; intros self H; simpl in *.
  - now rewrite app_nil_r.
  - rewrite IH.
    + rewrite observe_short by lia. now rewrite <- app_assoc.
    + rewrite observe_short by lia. rewrite length_app. simpl. lia.
Qed.

Lemma observe_all_snoc (ps : list float) (p : float) (self : TradeEngine) :
  observe_all self (ps ++ [p]) = observe (observe_all self ps) p.
Proof. unfold observe_all. now rewrite fold_left_app. Qed.

Lemma observe_51 (vs : list float) :
  List.length vs = 51 ->
  prices (observe_all TradeEngine_init vs) = tl vs.
Proof.
  intros H.
  destruct (@exists_last _ vs) as (front & x & ->);
    [intros ->; discriminate|].
  rewrite length_app in H. simpl in H.
  rewrite observe_all_snoc, observe_full.
  - rewrite observe_all_fits by (simpl; lia). simpl.
    destruct front; [discriminate|reflexivity].
  - rewrite observe_all_fits by (simpl; lia). simpl. lia.
Qed.

(** C6. The price window never holds more than 50 samples; a full window
    drops exactly its oldest sample on the next [update_price]; and after 51
    distinct values have been observed by a fresh engine, the first value is
    gone from the window and the second one is at its head. *)
Theorem price_window_bounded_fifo
  (self : TradeEngine) (ps : list float) (v1 v2 : float) (rest : list float)
  (Hinv : List.length (prices self) <= 50)
  (H51 : List.length (v1 :: v2 :: rest) = 51)
  (Hdistinct : NoDup (v1 :: v2 :: rest)) :
  List.length (prices (observe_all self ps)) <= 50
  /\ (List.length (prices self) = 50 ->
      forall p, exists oldest kept,
        prices self = oldest :: kept /\
        prices (observe self p) = kept ++ [p])
  /\ (let window := prices (observe_all TradeEngine_init (v1 :: v2 :: rest)) in
      List.length window = 50 /\ ~ In v1 window /\ hd_error window = Some v2).
Proof.
  split; [|split].
  - now apply observe_all_length_le.
  - intros Hfull p. rewrite (observe_full _ _ Hfull).
    destruct (prices self) as [|oldest kept]; [discriminate|].
    now exists oldest, kept.
  - cbv zeta. rewrite (observe_51 _ H51). simpl tl.
    split; [simpl in *; lia|]. split; [|reflexivity].
    now inversion Hdistinct.
Qed.

Lemma distinctb_NoDup (l : list float) : distinctb l = true -> NoDup l.
Proof.
  induction l as [|x r IH]; simpl; intros H; [constructor|].
  apply andb_prop in H as [H Hr]. apply andb_prop in H as [Hx Hnot].
  constructor; [|now apply IH].
  intros Hin. apply negb_true_iff in Hnot.
  assert (existsb (PrimFloat.eqb x) r = true) as E
    by (apply existsb_exists; now exists x).
  congruence.
Qed.

Lemma price_window_bounded_fifo_witness :
  List.length
    (prices (observe_all (observe_all TradeEngine_init (ramp 50))
                         [7%float; 8%float])) <= 50
  /\ (List.length (prices (observe_all TradeEngine_init (ramp 50))) = 50 ->
      forall p, exists oldest kept,
        prices (observe_all TradeEngine_init (ramp 50)) = oldest :: kept /\
        prices (observe (observe_all TradeEngine_init (ramp 50)) p)
        = kept ++ [p])
  /\ (List.length (prices (observe_all TradeEngine_init (ramp 51))) = 50
      /\ ~ In 1%float (prices (observe_all TradeEngine_init (ramp 51)))
      /\ hd_error (prices (observe_all TradeEngine_init (ramp 51)))
         = Some 2%float).
Proof.
  apply (price_window_bounded_fifo
           (observe_all TradeEngine_init (ramp 50)) [7%float; 8%float]
           1%float 2%float (tl (tl (ramp 51)))).
  - vm_compute. lia.
  - reflexivity.
  - apply distinctb_NoDup. vm_compute. reflexivity.
Defined.

(** ** TradeEngine.generate_signal *)

Lemma generate_signal_cases (self : TradeEngine) :
  signal_case self (generate_signal self).
Proof.
  unfold generate_signal. run.
  destruct (List.length (prices self) <? 16) eqn:Hlen; [constructor|].
  apply Nat.ltb_ge in Hlen.
  destruct (last_item_nonempty (prices self)) as (latest & Hlast).
  { intros E. rewrite E in Hlen. simpl in Hlen. lia. }
  rewrite Hlast.
  destruct (gt _ _).
  - destruct (last_buy_price self) as [lbp|] eqn:Hlbp.
    + destruct (gt latest _) eqn:Hgt.
      * apply case_buy; auto.
        intros lbp' E. rewrite Hlbp in E. now injection E as <-.
      * destruct (lt _ _); now constructor.
    + apply case_buy; auto. intros lbp' E. congruence.
  - destruct (lt _ _); now constructor.
Qed.

Lemma generate_signal_short (self : TradeEngine) :
  List.length (prices self) < 16 ->
  generate_signal self = (Ok "HOLD"%string, self).
Proof.
  intros H. unfold generate_signal. run.
  apply Nat.ltb_lt in H. now rewrite H.
Qed.

(** C10. [generate_signal] always returns one of the three signals, never
    changes the price window, sets [last_buy_price] (to the latest price)
    exactly on the calls that return BUY, and leaves the whole engine
    unchanged on every call that returns HOLD or SELL, the case of fewer than
    16 samples included. *)
Theorem generate_signal_frame (self : TradeEngine) :
  exists sig self',
    generate_signal self = (Ok sig, self')
    /\ prices self' = prices self
    /\ (sig = "BUY" \/ sig = "SELL" \/ sig = "HOLD")%string
    /\ (sig = "BUY"%string ->
        exists latest, last_item (prices self) = Ok latest
                       /\ last_buy_price self' = Some latest)
    /\ (sig <> "BUY"%string -> self' = self)
    /\ (List.length (prices self) < 16 -> sig = "HOLD"%string /\ self' = self).
Proof.
  pose proof (generate_signal_short self) as Hshort.
  destruct (generate_signal_cases self) as [|Hlen|latest Hlen Hlast _].
  - exists "HOLD"%string, self. repeat split; auto; discriminate.
  - exists "SELL"%string, self. repeat split; auto; try discriminate; lia.
  - eexists "BUY"%string, _. repeat split; auto; try lia.
    + now exists latest.
    + congruence.
Qed.

Lemma generate_signal_suppressed (P : float) (self : TradeEngine) :
  last_buy_price self = Some P ->
  latest_le (PrimFloat.mul P 1.001%float) self = true ->
  generate_signal self = (Ok "HOLD"%string, self)
  \/ generate_signal self = (Ok "SELL"%string, self).
Proof.
  intros Hlbp Hle.
  destruct (generate_signal_cases self) as [|Hlen|latest Hlen Hlast Hgt];
    [now left|now right|].
  exfalso. unfold latest_le in Hle. rewrite Hlast in Hle.
  apply leb_not_gt in Hle. rewrite (Hgt P Hlbp) in Hle. discriminate.
Qed.

Lemma generate_signal_buy (P : float) (self self' : TradeEngine) :
  last_buy_price self = Some P ->
  generate_signal self = (Ok "BUY"%string, self') ->
  exists latest,
    last_item (prices self) = Ok latest
    /\ gt latest (PrimFloat.mul P 1.001%float) = true
    /\ self' = {| prices := prices self; last_buy_price := Some latest |}.
Proof.
  intros Hlbp E.
  destruct (generate_signal_cases self) as [|Hlen|latest Hlen Hlast Hgt];
    try discriminate.
  injection E as <-. exists latest. auto.
Qed.

(** C5. Once [last_buy_price] is [P] (a BUY was emitted at [P]), over any
    sequence of [update_price] and [generate_signal] calls in which every
    [generate_signal] is made while the latest price is at most [P * 1.001],
    every signal returned is HOLD or SELL and [last_buy_price] stays [P];
    and a following call can return BUY only when the latest price exceeds
    [P * 1.001], in which case it sets [last_buy_price] to that price. *)
Theorem rebuy_suppressed_until_rise
  (P : float) (cs : list engine_call) (self : TradeEngine)
  (Hbought : last_buy_price self = Some P)
  (Hbelow : evaluated_below (PrimFloat.mul P 1.001%float) cs self = true) :
  Forall (fun r => r = Ok "HOLD"%string \/ r = Ok "SELL"%string)
         (fst (engine_run cs self))
  /\ last_buy_price (snd (engine_run cs self)) = Some P
  /\ (forall self',
        generate_signal (snd (engine_run cs self)) = (Ok "BUY"%string, self') ->
        exists latest,
          last_item (prices (snd (engine_run cs self))) = Ok latest
          /\ gt latest (PrimFloat.mul P 1.001%float) = true
          /\ last_buy_price self' = Some latest).
Proof.
  assert (Forall (fun r => r = Ok "HOLD"%string \/ r = Ok "SELL"%string)
                 (fst (engine_run cs self))
          /\ last_buy_price (snd (engine_run cs self)) = Some P) as [Hsigs Hkeep].
  { revert self Hbought Hbelow.
    induction cs as [|c cs IH]; intros self Hbought Hbelow; simpl.
    - split; [constructor|exact Hbought].
    - simpl in Hbelow. apply andb_prop in Hbelow as [Hc Hrest].
      destruct c as [p|]; simpl in *.
      + destruct (IH (observe self p)) as [Hs Hl]; auto.
        { now rewrite observe_last_buy_price. }
        destruct (engine_run cs (observe self p)). auto.
      + destruct (generate_signal_suppressed P self Hbought Hc) as [E|E];
          rewrite E in *; simpl in *;
          destruct (IH self Hbought Hrest) as [Hs Hl];
          destruct (engine_run cs self); simpl in *; auto. }
  split; [exact Hsigs|]. split; [exact Hkeep|].
  intros self' E.
  destruct (generate_signal_buy P _ _ Hkeep E) as (latest & Hlast & Hgt & ->).
  now exists latest.
Qed.

Lemma rebuy_suppressed_until_rise_witness :
  last_buy_price engine_after_buy = Some 16%float
  /\ Forall (fun r => r = Ok "HOLD"%string \/ r = Ok "SELL"%string)
            (fst (engine_run quiet_ticks engine_after_buy))
  /\ last_buy_price (snd (engine_run quiet_ticks engine_after_buy))
     = Some 16%float
  /\ (forall self',
        generate_signal (snd (engine_run quiet_ticks engine_after_buy))
        = (Ok "BUY"%string, self') ->
        exists latest,
          last_item (prices (snd (engine_run quiet_ticks engine_after_buy)))
          = Ok latest
          /\ gt latest (PrimFloat.mul 16%float 1.001%float) = true
          /\ last_buy_price self' = Some latest).
Proof.
  split; [reflexivity|].
  apply (rebuy_suppressed_until_rise 16%float quiet_ticks engine_after_buy).
  - reflexivity.
  - vm_compute. reflexivity.
Defined.

(** ** PaperTradeSimulator.execute_trade *)

Lemma execute_trade_cases (g : namespace) (signal : string) (price : float)
  (self : PaperTradeSimulator) :
  trade_case signal price self (execute_trade g signal price self).
Proof.
  unfold execute_trade, div. run.
  destruct (String.eqb signal "BUY") eqn:Hbuy; simpl.
  - apply String.eqb_eq in Hbuy.
    destruct (gt (balance self) 0) eqn:Hbal; simpl.
    + destruct (PrimFloat.eqb price 0) eqn:Hp; [constructor|].
      now apply case_bought.
    + subst signal. simpl. constructor.
  - destruct (String.eqb signal "SELL") eqn:Hsell; simpl; [|constructor].
    apply String.eqb_eq in Hsell.
    destruct (gt (holdings self) 0) eqn:Hhold; simpl; [|constructor].
    destruct (last_item (trade_history self)) as [entry|e] eqn:Hlast;
      [|constructor].
    destruct (PrimFloat.eqb (trade_price entry) 0) eqn:Hnz; [constructor|].
    assert (trade_case signal price self
              (Ok (SellExecuted price),
               (if gt (PrimFloat.sub (PrimFloat.mul (holdings self) price)
                         (PrimFloat.mul (trade_price entry) (holdings self))) 0
                then incr_wins else incr_losses)
                 (append_trade
                    (SellTrade price (PrimFloat.mul (holdings self) price)
                       (PrimFloat.add (balance self)
                          (PrimFloat.mul (holdings self) price))
                       (PrimFloat.sub (PrimFloat.mul (holdings self) price)
                          (PrimFloat.mul (trade_price entry) (holdings self))))
                    (set_holdings 0
                       (set_balance
                          (PrimFloat.add (balance self)
                             (PrimFloat.mul (holdings self) price)) self)))))
      as Hsold.
    { pose proof (case_sold signal price self entry Hsell Hhold Hlast Hnz) as C.
      cbv zeta in C. destruct (gt (PrimFloat.sub _ _) 0); exact C. }
    destruct (gt (PrimFloat.mul _ 100) 1).
    + destruct (gt (PrimFloat.sub _ _) 0); exact Hsold.
    + destruct (lookup g "short_ema") as [se|]; [|constructor].
      destruct (lookup g "long_ema") as [le|]; [|constructor].
      destruct (as_float le) as [l|]; [|constructor].
      destruct (as_float se) as [s|]; [|constructor].
      destruct (lt s _); [|constructor].
      destruct (gt (PrimFloat.sub _ _) 0); exact Hsold.
Qed.

(** C7. A SELL while holdings are zero, a BUY while the balance is zero, and
    a HOLD each leave the portfolio untouched and return the "No trade
    executed" outcome; no exception is raised. *)
Theorem execute_trade_noop
  (g : namespace) (signal : string) (price : float)
  (self : PaperTradeSimulator)
  (Hstate : (signal = "SELL"%string
             /\ PrimFloat.eqb (holdings self) 0%float = true)
            \/ (signal = "BUY"%string
                /\ PrimFloat.eqb (balance self) 0%float = true)
            \/ signal = "HOLD"%string) :
  execute_trade g signal price self = (Ok NoTradeExecuted, self).
Proof.
  unfold execute_trade. run.
  destruct Hstate as [[-> H]|[[-> H]| ->]]; simpl.
  - now rewrite (eqb_not_gt _ _ H).
  - now rewrite (eqb_not_gt _ _ H).
  - reflexivity.
Qed.

Lemma execute_trade_noop_witness :
  execute_trade module_globals "SELL" 100%float fresh_portfolio
  = (Ok NoTradeExecuted, fresh_portfolio)
  /\ execute_trade module_globals "BUY" 100%float broke_portfolio
     = (Ok NoTradeExecuted, broke_portfolio)
  /\ execute_trade module_globals "HOLD" 100%float portfolio_after_buy
     = (Ok NoTradeExecuted, portfolio_after_buy).
Proof.
  split; [|split].
  - apply (execute_trade_noop module_globals "SELL" 100%float fresh_portfolio).
    left. split; reflexivity.
  - apply (execute_trade_noop module_globals "BUY" 100%float broke_portfolio).
    right. left. split; reflexivity.
  - apply (execute_trade_noop module_globals "HOLD" 100%float
             portfolio_after_buy).
    right. right. reflexivity.
Defined.

(** C4. With holdings above zero, a SELL at [price] whose profit percentage
    (computed from the price of the last ledger entry) is above 1 adds
    [holdings * price] to the balance, sets holdings to zero, appends a SELL
    record carrying the profit, and increments exactly one counter: [wins]
    when the profit is positive, otherwise [losses]. *)
Theorem execute_trade_sell_profit
  (g : namespace) (price : float) (self : PaperTradeSimulator) (entry : trade)
  (Hhold : gt (holdings self) 0%float = true)
  (Hlast : last_item (trade_history self) = Ok entry)
  (Hbuy_price : PrimFloat.eqb (trade_price entry) 0%float = false)
  (Hgate : gt (PrimFloat.mul
                 (PrimFloat.div (PrimFloat.sub price (trade_price entry))
                                (trade_price entry))
                 100%float) 1%float = true) :
  let proceeds := PrimFloat.mul (holdings self) price in
  let profit :=
    PrimFloat.sub proceeds (PrimFloat.mul (trade_price entry) (holdings self)) in
  execute_trade g "SELL" price self
  = (Ok (SellExecuted price),
     {| balance := PrimFloat.add (balance self) proceeds;
        holdings := 0%float;
        trade_history :=
          trade_history self ++
          [SellTrade price proceeds (PrimFloat.add (balance self) proceeds)
                     profit];
        wins := if gt profit 0%float then wins self + 1 else wins self;
        losses := if gt profit 0%float then losses self
                  else losses self + 1 |}).
Proof.
  intros proceeds profit. subst proceeds profit.
  unfold execute_trade, div. run. simpl.
  rewrite Hhold, Hlast, Hbuy_price, Hgate.
  destruct (gt (PrimFloat.sub _ _) 0); reflexivity.
Qed.

Lemma execute_trade_sell_profit_witness :
  execute_trade module_globals "SELL" 102%float portfolio_after_buy
  = (Ok (SellExecuted 102%float),
     {| balance := PrimFloat.add 57.5%float (PrimFloat.mul 1.725%float 102%float);
        holdings := 0%float;
        trade_history :=
          [BuyTrade 100%float 1.725%float 57.5%float;
           SellTrade 102%float (PrimFloat.mul 1.725%float 102%float)
             (PrimFloat.add 57.5%float (PrimFloat.mul 1.725%float 102%float))
             (PrimFloat.sub (PrimFloat.mul 1.725%float 102%float)
                            (PrimFloat.mul 100%float 1.725%float))];
        wins := 1; losses := 0 |}).
Proof.
  apply (execute_trade_sell_profit module_globals 102%float portfolio_after_buy
           (BuyTrade 100%float 1.725%float 57.5%float));
    reflexivity.
Defined.

(** ** Invariants of the reachable portfolios *)

Lemma count_side_app (side : string) (h1 h2 : list trade) :
  count_side side (h1 ++ h2) = count_side side h1 + count_side side h2.
Proof. unfold count_side. now rewrite filter_app, length_app. Qed.

Lemma count_sides_total (history : list trade) :
  count_side "BUY" history + count_side "SELL" history = List.length history.
Proof.
  induction history as [|t h IH]; [reflexivity|].
  change (t :: h) with ([t] ++ h). rewrite !count_side_app, length_app.
  destruct t; cbn in *; lia.
Qed.

Lemma execute_trade_position (g : namespace) (signal : string) (price : float)
  (self : PaperTradeSimulator) :
  position_open_by_buy self ->
  position_open_by_buy (snd (execute_trade g signal price self)).
Proof.
  intros H.
  destruct (execute_trade_cases g signal price self);
    unfold position_open_by_buy; simpl; auto.
  right. rewrite last_item_app. eauto.
Qed.

Lemma execute_trade_counters (g : namespace) (signal : string) (price : float)
  (self : PaperTradeSimulator) :
  counters_match_ledger self ->
  counters_match_ledger (snd (execute_trade g signal price self)).
Proof.
  unfold counters_match_ledger. intros H.
  destruct (execute_trade_cases g signal price self); simpl; auto.
  - rewrite count_side_app. cbn. lia.
  - rewrite count_side_app. cbn. destruct (PrimFloat.ltb _ _); lia.
Qed.

Lemma reachable_position (self : PaperTradeSimulator) :
  reachable self -> position_open_by_buy self.
Proof.
  induction 1 as [b Hb|g signal price self Hreach IH].
  - now left.
  - now apply execute_trade_position.
Qed.

Lemma reachable_counters (self : PaperTradeSimulator) :
  reachable self -> counters_match_ledger self.
Proof.
  induction 1 as [b Hb|g signal price self Hreach IH].
  - reflexivity.
  - now apply execute_trade_counters.
Qed.

(** C8. In every portfolio reachable from a fresh one (positive balance, no
    holdings, empty ledger) by calls of [execute_trade], whenever holdings
    are above zero -- so that a SELL signal enters the SELL branch -- the
    ledger is not empty and its last entry is a BUY record: reading the buy
    price from [trade_history[-1]] cannot raise [IndexError]. *)
Theorem sell_branch_reads_buy_record
  (self : PaperTradeSimulator) (g : namespace) (price : float)
  (Hreach : reachable self)
  (Hhold : gt (holdings self) 0%float = true) :
  trade_history self <> []
  /\ (exists buy_price held bal,
        last_item (trade_history self) = Ok (BuyTrade buy_price held bal))
  /\ fst (execute_trade g "SELL" price self) <> Raise IndexError.
Proof.
  destruct (reachable_position self Hreach) as [Hzero|(bp & held & bal & Hlast)].
  { rewrite Hzero in Hhold. discriminate. }
  split; [intros E; rewrite E in Hlast; discriminate|].
  split; [eauto|].
  unfold execute_trade, div. run. simpl. rewrite Hhold, Hlast. simpl.
  destruct (PrimFloat.eqb bp 0); simpl; [congruence|].
  destruct (gt (PrimFloat.mul _ 100) 1).
  - destruct (gt (PrimFloat.sub _ _) 0); simpl; congruence.
  - destruct (lookup g "short_ema") as [se|e1] eqn:E1; simpl;
      [|apply lookup_Raise in E1; congruence].
    destruct (lookup g "long_ema") as [le|e2] eqn:E2; simpl;
      [|apply lookup_Raise in E2; congruence].
    destruct le, se; simpl; try congruence;
      destruct (lt _ _); simpl; try congruence;
      destruct (gt (PrimFloat.sub _ _) 0); simpl; congruence.
Qed.

Lemma sell_branch_reads_buy_record_witness :
  trade_history portfolio_after_buy <> []
  /\ (exists buy_price held bal,
        last_item (trade_history portfolio_after_buy)
        = Ok (BuyTrade buy_price held bal))
  /\ fst (execute_trade module_globals "SELL" 100.5%float portfolio_after_buy)
     <> Raise IndexError.
Proof.
  apply (sell_branch_reads_buy_record portfolio_after_buy module_globals
           100.5%float).
  - exact (reach_execute module_globals "BUY" 100%float fresh_portfolio
             (reach_init 230%float eq_refl)).
  - reflexivity.
Defined.

(** C9. In every reachable portfolio [wins + losses] is the number of SELL
    records in the ledger, hence the number of BUY records is the ledger's
    length minus both counters; and [execute_trade] preserves the equality
    from any portfolio that satisfies it, so it holds again after the next
    call. *)
Theorem counters_match_sell_records
  (self : PaperTradeSimulator) (Hreach : reachable self) :
  wins self + losses self = count_side "SELL" (trade_history self)
  /\ count_side "BUY" (trade_history self)
     = List.length (trade_history self) - wins self - losses self
  /\ (forall g signal price,
        wins (snd (execute_trade g signal price self))
        + losses (snd (execute_trade g signal price self))
        = count_side "SELL"
            (trade_history (snd (execute_trade g signal price self))))
  /\ (forall (other : PaperTradeSimulator) g signal price,
        wins other + losses other = count_side "SELL" (trade_history other) ->
        wins (snd (execute_trade g signal price other))
        + losses (snd (execute_trade g signal price other))
        = count_side "SELL"
            (trade_history (snd (execute_trade g signal price other)))).
Proof.
  pose proof (reachable_counters self Hreach) as H.
  unfold counters_match_ledger in H.
  split; [exact H|]. split.
  - pose proof (count_sides_total (trade_history self)). lia.
  - split.
    + intros g signal price.
      now apply (execute_trade_counters g signal price self).
    + intros other g signal price Hother.
      now apply (execute_trade_counters g signal price other).
Qed.

Lemma counters_match_sell_records_witness :
  (wins portfolio_after_sell = 1 /\ losses portfolio_after_sell = 0)
  /\ wins portfolio_after_sell + losses portfolio_after_sell
     = count_side "SELL" (trade_history portfolio_after_sell)
  /\ count_side "BUY" (trade_history portfolio_after_sell)
     = List.length (trade_history portfolio_after_sell)
       - wins portfolio_after_sell - losses portfolio_after_sell
  /\ (forall g signal price,
        wins (snd (execute_trade g signal price portfolio_after_sell))
        + losses (snd (execute_trade g signal price portfolio_after_sell))
        = count_side "SELL"
            (trade_history
               (snd (execute_trade g signal price portfolio_after_sell))))
  /\ (forall (other : PaperTradeSimulator) g signal price,
        wins other + losses other = count_side "SELL" (trade_history other) ->
        wins (snd (execute_trade g signal price other))
        + losses (snd (execute_trade g signal price other))
        = count_side "SELL"
            (trade_history (snd (execute_trade g signal price other)))).
Proof.
  split; [split; reflexivity|].
  apply (counters_match_sell_records portfolio_after_sell).
  exact (reach_execute module_globals "SELL" 102%float portfolio_after_buy
           (reach_execute module_globals "BUY" 100%float fresh_portfolio
              (reach_init 230%float eq_refl))).
Defined.

(** ** Where the program departs from its specification *)

(** The BUY branch, for any portfolio: the allocation is 75 % of the
    balance, the balance drops by it, a BUY record is appended -- and
    [holdings] is assigned, not increased. *)
Lemma execute_trade_buy (g : namespace) (price : float)
  (self : PaperTradeSimulator) :
  gt (balance self) 0%float = true ->
  PrimFloat.eqb price 0%float = false ->
  let allocation := PrimFloat.mul (balance self) 0.75%float in
  execute_trade g "BUY" price self
  = (Ok (BuyExecuted price),
     {| balance := PrimFloat.sub (balance self) allocation;
        holdings := PrimFloat.div allocation price;
        trade_history :=
          trade_history self ++
          [BuyTrade price (PrimFloat.div allocation price)
                    (PrimFloat.sub (balance self) allocation)];
        wins := wins self; losses := losses self |}).
Proof.
  intros Hbal Hprice. unfold execute_trade, div. run. simpl.
  now rewrite Hbal, Hprice.
Qed.

(** The SELL branch when the first operand of the gate is false: the second
    operand needs [short_ema], and the module binds no such name. *)
Lemma execute_trade_gate_unbound (price : float) (self : PaperTradeSimulator)
  (entry : trade) :
  gt (holdings self) 0%float = true ->
  last_item (trade_history self) = Ok entry ->
  PrimFloat.eqb (trade_price entry) 0%float = false ->
  gt (PrimFloat.mul
        (PrimFloat.div (PrimFloat.sub price (trade_price entry))
                       (trade_price entry))
        100%float) 1%float = false ->
  execute_trade module_globals "SELL" price self
  = (Raise (NameError "short_ema"), self).
Proof.
  intros Hhold Hlast Hnz Hgate. unfold execute_trade, div. run. simpl.
  now rewrite Hhold, Hlast, Hnz, Hgate.
Qed.

(** Had the two averages been in scope, a failing gate would be a no-op. *)
Lemma execute_trade_gate_fail_bound (g : namespace) (price short long : float)
  (self : PaperTradeSimulator) (entry : trade) :
  lookup g "short_ema" = Ok (Float short) ->
  lookup g "long_ema" = Ok (Float long) ->
  gt (holdings self) 0%float = true ->
  last_item (trade_history self) = Ok entry ->
  PrimFloat.eqb (trade_price entry) 0%float = false ->
  gt (PrimFloat.mul
        (PrimFloat.div (PrimFloat.sub price (trade_price entry))
                       (trade_price entry))
        100%float) 1%float = false ->
  lt short (PrimFloat.mul long 0.999%float) = false ->
  execute_trade g "SELL" price self = (Ok NoTradeExecuted, self).
Proof.
  intros Hs Hl Hhold Hlast Hnz Hgate Hcross.
  unfold execute_trade, div. run. simpl.
  now rewrite Hhold, Hlast, Hnz, Hgate, Hs, Hl; simpl; rewrite Hcross.
Qed.

(** C1 (the program departs from the claim). With 1.725 units bought at
    100.0, a SELL at 100.5 has a profit of 0.5 %, so the gate goes on to its
    second operand and the call ends in [NameError] on [short_ema] instead
    of returning the no-trade outcome; the portfolio is left as it was.  In
    the loop the same happens on tick 21 of [flat_then_dip]: the signal is
    SELL, the short average is not below 0.999 of the long one, and the
    exception ends the loop after 20 frames. *)
Theorem sell_gate_fail_raises_name_error :
  gt (holdings portfolio_after_buy) 0%float = true
  /\ PrimFloat.leb
       (PrimFloat.mul
          (PrimFloat.div (PrimFloat.sub 100.5%float 100%float) 100%float)
          100%float) 1%float = true
  /\ execute_trade module_globals "SELL" 100.5%float portfolio_after_buy
     = (Raise (NameError "short_ema"), portfolio_after_buy)
  /\ (let before := snd (trade_dashboard module_globals
                           (firstn 20 flat_then_dip)
                           (dashboard_init 230%float)) in
      let window := prices (observe (strategy before) 100%float) in
      let short_ema := PrimFloat.div (fsum (lastn 8 window)) 8%float in
      let long_ema := PrimFloat.div (fsum (lastn 16 window)) 16%float in
      let after := trade_dashboard module_globals flat_then_dip
                     (dashboard_init 230%float) in
      fst (generate_signal (observe (strategy before) 100%float))
      = Ok "SELL"%string
      /\ gt (holdings (simulator before)) 0%float = true
      /\ lt short_ema (PrimFloat.mul long_ema 0.999%float) = false
      /\ fst after = Raise (NameError "short_ema")
      /\ simulator (snd after) = simulator before
      /\ List.length (screen (snd after)) = 20).
Proof.
  split; [reflexivity|]. split; [reflexivity|].
  split; [now apply (execute_trade_gate_unbound _ _
                       (BuyTrade 100%float 1.725%float 57.5%float))|].
  vm_compute. repeat split; reflexivity.
Qed.

(** C2 (the program departs from the claim). A BUY at 101.0 on a portfolio
    that already holds 1.725 units and has 57.5 left allocates 43.125,
    lowers the balance to 14.375 and appends a BUY record, but assigns
    [holdings] the 0.4269... units just bought: the 1.725 units held before
    are dropped instead of being added to.  In the loop this happens on the
    17th tick of [steady_rise], where a second BUY follows the first. *)
Theorem buy_overwrites_holdings :
  let allocation := PrimFloat.mul 57.5%float 0.75%float in
  let bought := PrimFloat.div allocation 101%float in
  execute_trade module_globals "BUY" 101%float portfolio_after_buy
  = (Ok (BuyExecuted 101%float),
     {| balance := 14.375%float;
        holdings := bought;
        trade_history :=
          [BuyTrade 100%float 1.725%float 57.5%float;
           BuyTrade 101%float bought 14.375%float];
        wins := 0; losses := 0 |})
  /\ PrimFloat.eqb bought
       (PrimFloat.add (holdings portfolio_after_buy) bought) = false
  /\ lt bought (holdings portfolio_after_buy) = true
  /\ (let before := simulator (snd (trade_dashboard module_globals
                                      (firstn 16 steady_rise)
                                      (dashboard_init 230%float))) in
      let after := simulator (snd (trade_dashboard module_globals
                                     steady_rise
                                     (dashboard_init 230%float))) in
      holdings before = 10.78125%float
      /\ trade_history after
         = [BuyTrade 16%float 10.78125%float 57.5%float;
            BuyTrade 17%float (holdings after) 14.375%float]
      /\ holdings after
         = PrimFloat.div (PrimFloat.mul 57.5%float 0.75%float) 17%float
      /\ lt (holdings after) (holdings before) = true).
Proof.
  vm_compute. repeat split; reflexivity.
Qed.

(** C3 (the program departs from the claim). When the price request fails,
    [get_price] returns [None] and the tick's signal and trade are skipped
    with the engine and the portfolio untouched; but the loop then formats
    the price for display, which raises [TypeError] on [None]: no frame is
    drawn for the tick and the exception ends the loop, whatever ticks were
    still to come. *)
Theorem feed_failure_ends_dashboard
  (g : namespace) (key : bool) (rest : list tick) (d : dashboard) :
  get_price FetchRaised = None
  /\ trade_dashboard g ({| fetched := FetchRaised; quit_key := key |} :: rest) d
     = (Raise TypeError, d).
Proof. split; reflexivity. Qed.

(** * Further properties of the program *)

(** ** More on float comparison and Python lists *)

Lemma ltb_asym (x y : float) :
  PrimFloat.ltb x y = true -> PrimFloat.ltb y x = false.
Proof.
  rewrite !ltb_spec. unfold SFltb.
  rewrite (SFcompare_swap (Prim2SF x)).
  destruct (SFcompare (Prim2SF x) (Prim2SF y)) as [[]|]; simpl; congruence.
Qed.

Lemma lastn_all {A : Type} (n : nat) (l : list A) :
  List.length l <= n -> lastn n l = l.
Proof.
  intros H. unfold lastn. replace (List.length l - n) with 0 by lia.
  reflexivity.
Qed.

Lemma lastn_cons {A : Type} (n : nat) (a : A) (l : list A) :
  n <= List.length l -> lastn n (a :: l) = lastn n l.
Proof.
  intros H. unfold lastn. simpl List.length.
  replace (S (List.length l) - n) with (S (List.length l - n)) by lia.
  reflexivity.
Qed.

Lemma lastn_length {A : Type} (n : nat) (l : list A) :
  List.length (lastn n l) = Nat.min n (List.length l).
Proof. unfold lastn. rewrite length_skipn. lia. Qed.

(** ** TradeEngine: the window is the last 50 observations *)

Lemma observe_lastn (self : TradeEngine) (price : float) :
  List.length (prices self) <= 50 ->
  prices (observe self price) = lastn 50 (prices self ++ [price]).
Proof.
  intros H. destruct (Nat.eq_dec (List.length (prices self)) 50) as [E|E].
  - rewrite (observe_full _ _ E).
    destruct (prices self) as [|a l]; [discriminate|]. simpl in *.
    rewrite lastn_cons by (rewrite length_app; simpl; lia).
    rewrite lastn_all by (rewrite length_app; simpl; lia). reflexivity.
  - rewrite observe_short by lia.
    rewrite lastn_all by (rewrite length_app; simpl; lia). reflexivity.
Qed.

Lemma lastn_app_lastn {A : Type} (n : nat) (l r : list A) :
  lastn n (lastn n l ++ r) = lastn n (l ++ r).
Proof.
  unfold lastn. rewrite !length_app, length_skipn.
  destruct (Nat.le_gt_cases (List.length l) n) as [H|H].
  - replace (List.length l - n) with 0 by lia. simpl.
    now replace (List.length l - 0) with (List.length l) by lia.
  - rewrite !skipn_app, length_skipn, skipn_skipn.
    replace (List.length l - (List.length l - n) + List.length r - n
             + (List.length l - n))
      with (List.length l + List.length r - n) by lia.
    replace (List.length l - (List.length l - n) + List.length r - n
             - (List.length l - (List.length l - n)))
      with (List.length l + List.length r - n - List.length l) by lia.
    reflexivity.
Qed.

(** X1. Whatever is observed, and however much, the window of an engine
    that started within the limit holds exactly the last 50 items of what it
    held followed by what it was given, in order. *)
Theorem window_is_last_50 (self : TradeEngine) (ps : list float)
  (Hinv : List.length (prices self) <= 50) :
  prices (observe_all self ps) = lastn 50 (prices self ++ ps)
  /\ last_buy_price (observe_all self ps) = last_buy_price self.
Proof.
  revert self Hinv. induction ps as [|p ps IH]; intros self Hinv; simpl.
  - rewrite app_nil_r, lastn_all by exact Hinv. auto.
  - destruct (IH (observe self p) (observe_length_le _ _ Hinv)) as [Hp Hl].
    rewrite Hp, Hl, observe_last_buy_price. split; [|reflexivity].
    rewrite (observe_lastn _ _ Hinv), lastn_app_lastn, <- app_assoc.
    reflexivity.
Qed.

Lemma window_is_last_50_witness :
  prices (observe_all TradeEngine_init (ramp 60)) = lastn 50 ([] ++ ramp 60)
  /\ last_buy_price (observe_all TradeEngine_init (ramp 60)) = None.
Proof.
  apply (window_is_last_50 TradeEngine_init (ramp 60)). simpl. lia.
Defined.

(** X2. [update_price] cannot raise, leaves [last_buy_price] alone, and the
    price it was given is the latest one afterwards ([prices[-1]]), also when
    the call evicted an old sample. *)
Theorem update_price_latest (self : TradeEngine) (price : float) :
  fst (update_price price self) = Ok tt
  /\ last_item (prices (snd (update_price price self))) = Ok price
  /\ last_buy_price (snd (update_price price self)) = last_buy_price self.
Proof.
  split; [apply update_price_Ok|]. split; [|apply observe_last_buy_price].
  fold (observe self price). rewrite observe_prices.
  destruct (50 <? _) eqn:E; [|apply last_item_app].
  apply Nat.ltb_lt in E. rewrite length_app in E. simpl in E.
  destruct (prices self) as [|a l]; simpl in *; [lia|].
  apply last_item_app.
Qed.

(** ** TradeEngine: which signal comes out *)

(** X3. While fewer than 16 prices have been observed in all, every
    [generate_signal] made in between returns HOLD, whatever the prices are;
    the engine ends up holding the prices in order with [last_buy_price]
    untouched. *)
Theorem warm_up_holds (cs : list engine_call) (self : TradeEngine)
  (Hfew : List.length (prices self) + List.length (observed cs) < 16) :
  Forall (fun r => r = Ok "HOLD"%string) (fst (engine_run cs self))
  /\ snd (engine_run cs self)
     = {| prices := prices self ++ observed cs;
          last_buy_price := last_buy_price self |}.
Proof.
  revert self Hfew.
  induction cs as [|[p|] cs IH]; intros self Hfew; simpl in *.
  - split; [constructor|]. rewrite app_nil_r. now destruct self.
  - assert (prices (observe self p) = prices self ++ [p]) as Hp
      by (apply observe_short; lia).
    destruct (IH (observe self p)) as [Hs Hf].
    { rewrite Hp, length_app. simpl. lia. }
    destruct (engine_run cs (observe self p)) as [sigs final]. simpl in *.
    split; [exact Hs|].
    rewrite Hf, Hp, observe_last_buy_price, <- app_assoc. reflexivity.
  - rewrite generate_signal_short by lia.
    destruct (IH self Hfew) as [Hs Hf].
    destruct (engine_run cs self) as [sigs final]. simpl in *.
    split; [constructor; auto|exact Hf].
Qed.

Lemma warm_up_holds_witness :
  Forall (fun r => r = Ok "HOLD"%string)
    (fst (engine_run (Evaluate :: map Observe (ramp 15) ++ [Evaluate])
            TradeEngine_init))
  /\ snd (engine_run (Evaluate :: map Observe (ramp 15) ++ [Evaluate])
            TradeEngine_init)
     = {| prices := [] ++ observed (Evaluate :: map Observe (ramp 15)
                                      ++ [Evaluate]);
          last_buy_price := None |}.
Proof.
  apply (warm_up_holds (Evaluate :: map Observe (ramp 15) ++ [Evaluate])
           TradeEngine_init).
  vm_compute. lia.
Defined.

Lemma generate_signal_full (self : TradeEngine) :
  16 <= List.length (prices self) ->
  exists latest,
    last_item (prices self) = Ok latest
    /\ generate_signal self
       = if gt (short_ema self) (long_ema self)
            && match last_buy_price self with
               | None => true
               | Some lbp => gt latest (PrimFloat.mul lbp 1.001%float)
               end
         then (Ok "BUY"%string,
               {| prices := prices self; last_buy_price := Some latest |})
         else if lt (short_ema self) (long_ema self)
              then (Ok "SELL"%string, self)
              else (Ok "HOLD"%string, self).
Proof.
  intros Hlen.
  destruct (last_item_nonempty (prices self)) as (latest & Hlast).
  { intros E. rewrite E in Hlen. simpl in Hlen. lia. }
  exists latest. split; [exact Hlast|].
  unfold generate_signal, short_ema, long_ema. run.
  apply Nat.ltb_ge in Hlen. rewrite Hlen, Hlast.
  destruct (gt _ _); simpl.
  - destruct (last_buy_price self) as [lbp|]; [|reflexivity].
    destruct (gt latest _); [reflexivity|].
    destruct (lt _ _); reflexivity.
  - destruct (lt _ _); reflexivity.
Qed.

(** X4. [generate_signal] returns SELL exactly when the window holds at
    least 16 prices and the short average is below the long one; it returns
    BUY only when the short average is above the long one.  So a BUY that the
    re-buy rule suppresses always comes out as HOLD, never as SELL, and the
    engine is left unchanged by it. *)
Theorem sell_signal_iff (self : TradeEngine) :
  (fst (generate_signal self) = Ok "SELL"%string
   <-> 16 <= List.length (prices self)
       /\ lt (short_ema self) (long_ema self) = true)
  /\ (fst (generate_signal self) = Ok "BUY"%string ->
      16 <= List.length (prices self)
      /\ gt (short_ema self) (long_ema self) = true)
  /\ (16 <= List.length (prices self) ->
      gt (short_ema self) (long_ema self) = true ->
      fst (generate_signal self) <> Ok "BUY"%string ->
      generate_signal self = (Ok "HOLD"%string, self)).
Proof.
  destruct (Nat.lt_ge_cases (List.length (prices self)) 16) as [Hlen|Hlen].
  { rewrite (generate_signal_short _ Hlen). simpl.
    repeat split; try discriminate; try lia; intros; lia. }
  destruct (generate_signal_full self Hlen) as (latest & Hlast & E).
  rewrite E. clear E.
  destruct (gt (short_ema self) (long_ema self)) eqn:Hgt; simpl.
  - assert (lt (short_ema self) (long_ema self) = false) as Hlt
      by (apply ltb_asym; exact Hgt).
    rewrite Hlt.
    destruct (match last_buy_price self with None => true | Some _ => _ end);
      simpl; repeat split; auto; try discriminate;
        try (intros [_ ?]; discriminate); congruence.
  - destruct (lt (short_ema self) (long_ema self)) eqn:Hlt; simpl;
      repeat split; auto; try discriminate;
        try (intros [_ ?]; discriminate); congruence.
Qed.

(** ** PaperTradeSimulator: exceptions, the ledger, compositions *)

Lemma last_item_Raise {A : Type} (l : list A) (e : exn) :
  last_item l = Raise e -> l = [] /\ e = IndexError.
Proof.
  destruct l as [|a l]; simpl; [now intros [= <-]|].
  intros H. destruct (last_item_nonempty (a :: l)) as (x & Hx); [discriminate|].
  simpl in Hx. congruence.
Qed.

Lemma as_float_Raise (v : object) (e : exn) :
  as_float v = Raise e -> e = TypeError.
Proof. destruct v; simpl; congruence. Qed.

(** Every way [execute_trade] can raise. *)
Lemma execute_trade_raises (g : namespace) (signal : string) (price : float)
  (self s' : PaperTradeSimulator) (e : exn) :
  execute_trade g signal price self = (Raise e, s') ->
  s' = self
  /\ ((signal = "BUY"%string /\ gt (balance self) 0%float = true
       /\ PrimFloat.eqb price 0%float = true /\ e = ZeroDivisionError)
      \/ (signal = "SELL"%string /\ gt (holdings self) 0%float = true
          /\ ((trade_history self = [] /\ e = IndexError)
              \/ exists entry,
                   last_item (trade_history self) = Ok entry
                   /\ ((PrimFloat.eqb (trade_price entry) 0%float = true
                        /\ e = ZeroDivisionError)
                       \/ (PrimFloat.eqb (trade_price entry) 0%float = false
                           /\ gt (PrimFloat.mul
                                    (PrimFloat.div
                                       (PrimFloat.sub price (trade_price entry))
                                       (trade_price entry)) 100%float)
                                 1%float = false
                           /\ (lookup g "short_ema" = Raise e
                               \/ exists v,
                                    lookup g "short_ema" = Ok v
                                    /\ (lookup g "long_ema" = Raise e
                                        \/ e = TypeError))))))).
Proof.
  unfold execute_trade, div. run.
  destruct (String.eqb signal "BUY") eqn:Hbuy; simpl.
  - apply String.eqb_eq in Hbuy. subst signal.
    destruct (gt (balance self) 0) eqn:Hbal; simpl; [|discriminate].
    destruct (PrimFloat.eqb price 0) eqn:Hp; [|discriminate].
    intros [= <- <-]. split; [reflexivity|]. left. auto.
  - destruct (String.eqb signal "SELL") eqn:Hsell; simpl; [|discriminate].
    apply String.eqb_eq in Hsell. subst signal.
    destruct (gt (holdings self) 0) eqn:Hhold; simpl; [|discriminate].
    destruct (last_item (trade_history self)) as [entry|e0] eqn:Hlast.
    2:{ intros [= <- <-]. split; [reflexivity|]. right.
        apply last_item_Raise in Hlast as [-> ->]. auto. }
    destruct (PrimFloat.eqb (trade_price entry) 0) eqn:Hnz.
    { intros [= <- <-]. split; [reflexivity|]. right.
      repeat split; auto. right. exists entry. auto. }
    destruct (gt (PrimFloat.mul _ 100) 1) eqn:Hgate.
    { destruct (gt (PrimFloat.sub _ _) 0); discriminate. }
    assert (forall x : exn,
              (lookup g "short_ema" = Raise x
               \/ exists v, lookup g "short_ema" = Ok v
                            /\ (lookup g "long_ema" = Raise x
                                \/ x = TypeError)) ->
              self = self
              /\ (("SELL" = "BUY" /\ gt (balance self) 0 = true
                   /\ PrimFloat.eqb price 0 = true /\ x = ZeroDivisionError)
                  \/ ("SELL" = "SELL" /\ true = true
                      /\ ((trade_history self = [] /\ x = IndexError)
                          \/ exists entry0,
                               Ok entry = Ok entry0
                               /\ ((PrimFloat.eqb (trade_price entry0) 0 = true
                                    /\ x = ZeroDivisionError)
                                   \/ (PrimFloat.eqb (trade_price entry0) 0
                                       = false
                                       /\ gt (PrimFloat.mul
                                                (PrimFloat.div
                                                   (PrimFloat.sub price
                                                      (trade_price entry0))
                                                   (trade_price entry0)) 100)
                                             1 = false
                                       /\ (lookup g "short_ema" = Raise x
                                           \/ exists v,
                                                lookup g "short_ema" = Ok v
                                                /\ (lookup g "long_ema"
                                                    = Raise x
                                                    \/ x = TypeError)))))))%string)
      as Hout.
    { intros x Hx. split; [reflexivity|]. right. repeat split.
      right. exists entry. split; [reflexivity|]. right. auto. }
    revert Hout.
    destruct (lookup g "short_ema") as [se|e1];
      [|intros Hout [= <- <-]; apply Hout; auto].
    destruct (lookup g "long_ema") as [le|e2];
      [|intros Hout [= <- <-]; apply Hout; eauto].
    destruct (as_float le) as [l|e3] eqn:E3;
      [|intros Hout [= <- <-]; apply as_float_Raise in E3; apply Hout; eauto].
    destruct (as_float se) as [s|e4] eqn:E4;
      [|intros Hout [= <- <-]; apply as_float_Raise in E4; apply Hout; eauto].
    intros _.
    simpl. destruct (lt s _); [|discriminate].
    destruct (gt (PrimFloat.sub _ _) 0); discriminate.
Qed.

(** X5. A call of [execute_trade] that raises leaves the portfolio exactly
    as it was, is a BUY or a SELL, and raises one of five exceptions; a BUY
    can only raise [ZeroDivisionError], and only at a price equal to zero. *)
Theorem execute_trade_raise_atomic
  (g : namespace) (signal : string) (price : float)
  (self : PaperTradeSimulator) (e : exn)
  (Hraise : fst (execute_trade g signal price self) = Raise e) :
  snd (execute_trade g signal price self) = self
  /\ (signal = "BUY" \/ signal = "SELL")%string
  /\ (e = ZeroDivisionError \/ e = IndexError \/ e = TypeError
      \/ e = NameError "short_ema" \/ e = NameError "long_ema")
  /\ (signal = "BUY"%string ->
      e = ZeroDivisionError /\ PrimFloat.eqb price 0%float = true).
Proof.
  destruct (execute_trade g signal price self) as [r s'] eqn:E.
  simpl in Hraise. subst r.
  destruct (execute_trade_raises _ _ _ _ _ _ E) as [-> Hcases].
  split; [reflexivity|].
  destruct Hcases as [(-> & _ & Hp & ->)|(-> & _ & Hsell)].
  - repeat split; auto.
  - split; [auto|]. split; [|discriminate].
    destruct Hsell as [[_ ->]|(entry & _ & [[_ ->]|(_ & _ & Hgate)])]; auto.
    destruct Hgate as [H|(v & _ & [H| ->])]; auto;
      apply lookup_Raise in H; subst e; auto.
Qed.

Lemma execute_trade_raise_atomic_witness :
  snd (execute_trade module_globals "SELL" 100.5%float portfolio_after_buy)
  = portfolio_after_buy
  /\ ("SELL" = "BUY" \/ "SELL" = "SELL")%string
  /\ (NameError "short_ema" = ZeroDivisionError
      \/ NameError "short_ema" = IndexError
      \/ NameError "short_ema" = TypeError
      \/ NameError "short_ema" = NameError "short_ema"
      \/ NameError "short_ema" = NameError "long_ema")
  /\ ("SELL"%string = "BUY"%string ->
      NameError "short_ema" = ZeroDivisionError
      /\ PrimFloat.eqb 100.5%float 0%float = true).
Proof.
  apply (execute_trade_raise_atomic module_globals "SELL" 100.5%float
           portfolio_after_buy (NameError "short_ema")).
  reflexivity.
Defined.

(** X6. A BUY at a price equal to zero (of either sign), with money to
    spend, raises [ZeroDivisionError] before anything is assigned: balance,
    holdings, ledger and counters are unchanged. *)
Theorem buy_at_zero_price_raises
  (g : namespace) (price : float) (self : PaperTradeSimulator)
  (Hbal : gt (balance self) 0%float = true)
  (Hzero : PrimFloat.eqb price 0%float = true) :
  execute_trade g "BUY" price self = (Raise ZeroDivisionError, self).
Proof.
  unfold execute_trade, div. run. simpl. now rewrite Hbal, Hzero.
Qed.

Lemma buy_at_zero_price_raises_witness :
  execute_trade module_globals "BUY" (-0)%float fresh_portfolio
  = (Raise ZeroDivisionError, fresh_portfolio).
Proof.
  apply (buy_at_zero_price_raises module_globals (-0)%float fresh_portfolio);
    reflexivity.
Defined.

(** X7. The ledger is append-only and the counters never go down: a call of
    [execute_trade] keeps every earlier record in place and appends one
    record exactly when it reports an executed trade (a BUY record for a BUY,
    a SELL record for a SELL); otherwise -- no trade, or an exception -- the
    whole portfolio is unchanged.  A BUY never touches the counters; a SELL
    raises exactly one of them by one. *)
Theorem ledger_append_only
  (g : namespace) (signal : string) (price : float)
  (self : PaperTradeSimulator) :
  let r := fst (execute_trade g signal price self) in
  let self' := snd (execute_trade g signal price self) in
  (r = Ok (BuyExecuted price)
   /\ (exists held bal,
         trade_history self' = trade_history self ++ [BuyTrade price held bal])
   /\ wins self' = wins self /\ losses self' = losses self)
  \/ (r = Ok (SellExecuted price)
      /\ (exists proceeds bal profit,
            trade_history self'
            = trade_history self ++ [SellTrade price proceeds bal profit])
      /\ wins self' + losses self' = wins self + losses self + 1
      /\ wins self <= wins self' /\ losses self <= losses self')
  \/ ((r = Ok NoTradeExecuted \/ exists e, r = Raise e) /\ self' = self).
Proof.
  cbv zeta.
  destruct (execute_trade_cases g signal price self); simpl.
  - left. repeat split; eauto.
  - right. left. split; [reflexivity|]. split; [eauto|].
    match goal with |- context [if ?c then _ else _] => destruct c end; lia.
  - right. right. auto.
  - right. right. eauto.
Qed.

(** X8. A BUY followed by a SELL whose price is more than 1 % above the BUY
    price: the SELL reads the price of the BUY just recorded, pays out
    [held * sell_price] for the units that BUY acquired, and leaves the
    quarter of the balance the BUY did not spend plus the proceeds, no
    holdings, both records at the end of the ledger in order, and one more
    win or loss. *)
Theorem sell_after_buy
  (g g' : namespace) (buy_at sell_at : float) (self : PaperTradeSimulator)
  (Hbal : gt (balance self) 0%float = true)
  (Hprice : PrimFloat.eqb buy_at 0%float = false)
  (Hheld : gt (PrimFloat.div (PrimFloat.mul (balance self) 0.75%float) buy_at)
              0%float = true)
  (Hgate : gt (PrimFloat.mul
                 (PrimFloat.div (PrimFloat.sub sell_at buy_at) buy_at)
                 100%float) 1%float = true) :
  let allocation := PrimFloat.mul (balance self) 0.75%float in
  let held := PrimFloat.div allocation buy_at in
  let kept := PrimFloat.sub (balance self) allocation in
  let proceeds := PrimFloat.mul held sell_at in
  let profit := PrimFloat.sub proceeds (PrimFloat.mul buy_at held) in
  let bought := execute_trade g "BUY" buy_at self in
  let sold := execute_trade g' "SELL" sell_at (snd bought) in
  fst bought = Ok (BuyExecuted buy_at)
  /\ fst sold = Ok (SellExecuted sell_at)
  /\ snd sold
     = {| balance := PrimFloat.add kept proceeds;
          holdings := 0%float;
          trade_history :=
            trade_history self ++
            [BuyTrade buy_at held kept;
             SellTrade sell_at proceeds (PrimFloat.add kept proceeds) profit];
          wins := if gt profit 0%float then wins self + 1 else wins self;
          losses := if gt profit 0%float then losses self
                    else losses self + 1 |}.
Proof.
  cbv zeta. rewrite (execute_trade_buy g buy_at self Hbal Hprice).
  cbv zeta. simpl fst. simpl snd. split; [reflexivity|].
  unfold execute_trade, div. run. simpl.
  rewrite Hheld, last_item_app. simpl. rewrite Hprice, Hgate.
  destruct (gt (PrimFloat.sub _ _) 0);
    (split; [reflexivity|]);
    unfold incr_wins, incr_losses, append_trade, set_holdings, set_balance;
    cbn [fst snd balance holdings trade_history wins losses];
    rewrite <- app_assoc; reflexivity.
Qed.

Lemma sell_after_buy_witness :
  fst (execute_trade module_globals "BUY" 100%float fresh_portfolio)
  = Ok (BuyExecuted 100%float)
  /\ fst (execute_trade module_globals "SELL" 102%float
            (snd (execute_trade module_globals "BUY" 100%float
                    fresh_portfolio)))
     = Ok (SellExecuted 102%float)
  /\ snd (execute_trade module_globals "SELL" 102%float
            (snd (execute_trade module_globals "BUY" 100%float
                    fresh_portfolio)))
     = {| balance := PrimFloat.add 57.5%float
                       (PrimFloat.mul 1.725%float 102%float);
          holdings := 0%float;
          trade_history :=
            [BuyTrade 100%float 1.725%float 57.5%float;
             SellTrade 102%float (PrimFloat.mul 1.725%float 102%float)
               (PrimFloat.add 57.5%float (PrimFloat.mul 1.725%float 102%float))
               (PrimFloat.sub (PrimFloat.mul 1.725%float 102%float)
                              (PrimFloat.mul 100%float 1.725%float))];
          wins := 1; losses := 0 |}.
Proof.
  apply (sell_after_buy module_globals module_globals 100%float 102%float
           fresh_portfolio); reflexivity.
Defined.

(** ** PaperTradeSimulator: more invariants of the reachable portfolios *)

Lemma execute_trade_ledger_consistent
  (g : namespace) (signal : string) (price : float)
  (self : PaperTradeSimulator) :
  ledger_consistent self ->
  ledger_consistent (snd (execute_trade g signal price self)).
Proof.
  intros H.
  destruct (execute_trade_cases g signal price self);
    unfold ledger_consistent; simpl; auto;
    rewrite last_item_app; auto.
Qed.

Lemma reachable_ledger_consistent (self : PaperTradeSimulator) :
  reachable self -> ledger_consistent self.
Proof.
  induction 1 as [b Hb|g signal price self Hreach IH].
  - reflexivity.
  - now apply execute_trade_ledger_consistent.
Qed.

(** X9. In every reachable portfolio the last ledger record mirrors the
    portfolio: an empty ledger means no holdings; a last record that is a
    BUY carries the current holdings and balance and a price different from
    zero; a last record that is a SELL carries the current balance, and
    holdings are zero. *)
Theorem last_record_mirrors_portfolio
  (self : PaperTradeSimulator) (Hreach : reachable self) :
  (trade_history self = [] -> holdings self = 0%float)
  /\ (forall p held bal,
        last_item (trade_history self) = Ok (BuyTrade p held bal) ->
        held = holdings self /\ bal = balance self
        /\ PrimFloat.eqb p 0%float = false)
  /\ (forall p proceeds bal profit,
        last_item (trade_history self) = Ok (SellTrade p proceeds bal profit) ->
        holdings self = 0%float /\ bal = balance self).
Proof.
  pose proof (reachable_ledger_consistent self Hreach) as H.
  unfold ledger_consistent in H.
  split; [|split].
  - intros E. rewrite E in H. exact H.
  - intros p held bal E. rewrite E in H. exact H.
  - intros p proceeds bal profit E. rewrite E in H. exact H.
Qed.

Lemma last_record_mirrors_portfolio_witness :
  (trade_history portfolio_after_sell = [] ->
   holdings portfolio_after_sell = 0%float)
  /\ (forall p held bal,
        last_item (trade_history portfolio_after_sell)
        = Ok (BuyTrade p held bal) ->
        held = holdings portfolio_after_sell
        /\ bal = balance portfolio_after_sell
        /\ PrimFloat.eqb p 0%float = false)
  /\ (forall p proceeds bal profit,
        last_item (trade_history portfolio_after_sell)
        = Ok (SellTrade p proceeds bal profit) ->
        holdings portfolio_after_sell = 0%float
        /\ bal = balance portfolio_after_sell).
Proof.
  apply (last_record_mirrors_portfolio portfolio_after_sell).
  exact (reach_execute module_globals "SELL" 102%float portfolio_after_buy
           (reach_execute module_globals "BUY" 100%float fresh_portfolio
              (reach_init 230%float eq_refl))).
Defined.

Lemma execute_trade_sells_behind
  (g : namespace) (signal : string) (price : float)
  (self : PaperTradeSimulator) :
  sells_behind_buys self ->
  sells_behind_buys (snd (execute_trade g signal price self)).
Proof.
  unfold sells_behind_buys. intros H.
  destruct (execute_trade_cases g signal price self) as [| |  |];
    cbn [snd holdings trade_history]; auto.
  - right. rewrite !count_side_app. cbn. lia.
  - left. split; [reflexivity|]. rewrite !count_side_app. cbn.
    destruct H as [[Hz _]|H]; [|lia].
    match goal with Hh : gt (holdings self) _ = true |- _ =>
      rewrite Hz in Hh; discriminate Hh end.
Qed.

Lemma reachable_sells_behind (self : PaperTradeSimulator) :
  reachable self -> sells_behind_buys self.
Proof.
  induction 1 as [b Hb|g signal price self Hreach IH].
  - left. split; [reflexivity|]. cbn. lia.
  - now apply execute_trade_sells_behind.
Qed.

(** X10. In every reachable portfolio there are at most as many SELL
    records as BUY records, so what [get_trade_summary] returns -- without
    changing anything -- satisfies [2 * (wins + losses) <= total_trades]:
    the win rate the dashboard derives from it cannot exceed 50 %. *)
Theorem sells_never_outnumber_buys
  (self : PaperTradeSimulator) (Hreach : reachable self) :
  count_side "SELL" (trade_history self)
  <= count_side "BUY" (trade_history self)
  /\ (exists w l total,
        get_trade_summary self = (Ok (w, l, total), self)
        /\ w = wins self /\ l = losses self
        /\ total = List.length (trade_history self)
        /\ 2 * (w + l) <= total
        /\ 2 * w <= total).
Proof.
  assert (count_side "SELL" (trade_history self)
          <= count_side "BUY" (trade_history self)) as Hle
    by (destruct (reachable_sells_behind self Hreach) as [[_ H]|H]; lia).
  split; [exact Hle|].
  exists (wins self), (losses self), (List.length (trade_history self)).
  pose proof (reachable_counters self Hreach) as Hc.
  unfold counters_match_ledger in Hc.
  pose proof (count_sides_total (trade_history self)).
  repeat split; lia.
Qed.

Lemma sells_never_outnumber_buys_witness :
  count_side "SELL" (trade_history portfolio_after_sell)
  <= count_side "BUY" (trade_history portfolio_after_sell)
  /\ (exists w l total,
        get_trade_summary portfolio_after_sell
        = (Ok (w, l, total), portfolio_after_sell)
        /\ w = wins portfolio_after_sell /\ l = losses portfolio_after_sell
        /\ total = List.length (trade_history portfolio_after_sell)
        /\ 2 * (w + l) <= total
        /\ 2 * w <= total).
Proof.
  apply (sells_never_outnumber_buys portfolio_after_sell).
  exact (reach_execute module_globals "SELL" 102%float portfolio_after_buy
           (reach_execute module_globals "BUY" 100%float fresh_portfolio
              (reach_init 230%float eq_refl))).
Defined.

(** X11. With the module's own globals and a reachable portfolio,
    [execute_trade] can raise in two ways only: [ZeroDivisionError] for a
    BUY at a price equal to zero, and [NameError] on [short_ema] for a SELL
    with holdings above zero.  [IndexError] (empty ledger) and a division by
    a zero buy price cannot happen. *)
Theorem reachable_raises_only
  (signal : string) (price : float) (self : PaperTradeSimulator) (e : exn)
  (Hreach : reachable self)
  (Hraise : fst (execute_trade module_globals signal price self) = Raise e) :
  (signal = "BUY"%string /\ PrimFloat.eqb price 0%float = true
   /\ e = ZeroDivisionError)
  \/ (signal = "SELL"%string /\ gt (holdings self) 0%float = true
      /\ e = NameError "short_ema").
Proof.
  destruct (execute_trade module_globals signal price self) as [r s'] eqn:E.
  simpl in Hraise. subst r.
  destruct (execute_trade_raises _ _ _ _ _ _ E) as [_ Hcases].
  pose proof (reachable_ledger_consistent self Hreach) as Hc.
  unfold ledger_consistent in Hc.
  destruct Hcases as [(-> & _ & Hp & ->)|(-> & Hhold & Hsell)]; [now left|].
  right. split; [reflexivity|]. split; [exact Hhold|].
  assert (holdings self <> 0%float) as Hnz
    by (intros Hz; rewrite Hz in Hhold; discriminate Hhold).
  destruct Hsell as [[Hempty _]|(entry & Hlast & Hentry)].
  { rewrite Hempty in Hc. contradiction. }
  rewrite Hlast in Hc.
  destruct Hentry as [[Hzero _]|(_ & _ & Hgate)].
  { destruct entry; simpl in Hzero; [|tauto].
    destruct Hc as (_ & _ & Hp). congruence. }
  destruct Hgate as [H|(v & H & _)].
  - now apply lookup_Raise in H.
  - discriminate H.
Qed.

Lemma reachable_raises_only_witness :
  ("SELL"%string = "BUY"%string /\ PrimFloat.eqb 100.5%float 0%float = true
   /\ NameError "short_ema" = ZeroDivisionError)
  \/ ("SELL"%string = "SELL"%string
      /\ gt (holdings portfolio_after_buy) 0%float = true
      /\ NameError "short_ema" = NameError "short_ema").
Proof.
  apply (reachable_raises_only "SELL" 100.5%float portfolio_after_buy
           (NameError "short_ema")).
  - exact (reach_execute module_globals "BUY" 100%float fresh_portfolio
             (reach_init 230%float eq_refl)).
  - reflexivity.
Defined.

(** ** trade_dashboard: what one pass of the loop does *)

Lemma trade_dashboard_cons (g : namespace) (t : tick) (world : list tick) :
  trade_dashboard g (t :: world)
  = ((if truthy (get_price (fetched t)) then
        match get_price (fetched t) with
        | Some p =>
            on_strategy (update_price p) ;;
            signal <- on_strategy generate_signal ;;
            m <- on_simulator (execute_trade g signal p) ;;
            assign_trade_message m
        | None => ret tt
        end
      else ret tt) ;;
     draw_ui (get_price (fetched t)) ;;
     after_tick g t world).
Proof. reflexivity. Qed.

Lemma draw_ui_message (p : float) (m : trade_message) (d : dashboard) :
  trade_message_var d = Some m ->
  draw_ui (Some p) d
  = (Ok tt,
     {| strategy := strategy d; simulator := simulator d;
        trade_message_var := Some m;
        screen := screen d ++ [frame_of p (simulator d) m] |}).
Proof.
  intros Hm. unfold draw_ui, format_price, on_simulator, get_balance,
    get_trade_summary, read_trade_message, refresh. run. simpl.
  rewrite Hm. reflexivity.
Qed.

Lemma draw_ui_unbound (p : float) (d : dashboard) :
  trade_message_var d = None ->
  draw_ui (Some p) d = (Raise (UnboundLocalError "trade_message"), d).
Proof.
  intros Hm. unfold draw_ui, format_price, on_simulator, get_balance,
    get_trade_summary, read_trade_message, refresh. run. simpl.
  rewrite Hm. destruct d. simpl in *. now subst.
Qed.

Lemma generate_signal_Ok (self : TradeEngine) :
  exists sig, fst (generate_signal self) = Ok sig.
Proof.
  destruct (generate_signal_cases self); simpl; eauto.
Qed.

(** One pass with a usable price and a trade that returns. *)
Lemma tick_ok
  (g : namespace) (p : float) (key : bool) (world : list tick) (d : dashboard)
  (sig : string) (e' : TradeEngine) (m : trade_message)
  (s' : PaperTradeSimulator)
  (Hprice : PrimFloat.eqb p 0%float = false)
  (Hsignal : generate_signal (observe (strategy d) p) = (Ok sig, e'))
  (Htrade : execute_trade g sig p (simulator d) = (Ok m, s')) :
  trade_dashboard g ({| fetched := Fetched p; quit_key := key |} :: world) d
  = after_tick g {| fetched := Fetched p; quit_key := key |} world
      {| strategy := e'; simulator := s'; trade_message_var := Some m;
         screen := screen d ++ [frame_of p s' m] |}.
Proof.
  rewrite trade_dashboard_cons. simpl get_price. simpl fetched.
  unfold truthy. rewrite Hprice. simpl negb. cbv iota.
  remember (draw_ui (Some p)) as draw eqn:Hdraw.
  remember (after_tick g {| fetched := Fetched p; quit_key := key |} world)
    as next eqn:Hnext.
  unfold on_strategy, on_simulator, assign_trade_message. run.
  pose proof (update_price_Ok p (strategy d)) as Hup.
  unfold observe in Hsignal.
  destruct (update_price p (strategy d)) as [r e1]. simpl in Hup, Hsignal.
  subst r. simpl. rewrite Hsignal. simpl. rewrite Htrade. simpl.
  subst draw. rewrite (draw_ui_message p m) by reflexivity. reflexivity.
Qed.

(** X12. A pass of the loop whose price is fetched and is not zero, and
    whose trade does not raise: the engine has observed the price and
    evaluated, the portfolio is the one [execute_trade] left, and exactly one
    frame is added that shows this price, the portfolio after the trade (not
    before it), at most its last five records, and this pass's message; then
    the loop stops on [q] or goes on. *)
Theorem tick_shows_state_after_trade
  (g : namespace) (p : float) (key : bool) (world : list tick) (d : dashboard)
  (sig : string) (e' : TradeEngine) (m : trade_message)
  (s' : PaperTradeSimulator)
  (Hprice : PrimFloat.eqb p 0%float = false)
  (Hsignal : generate_signal (observe (strategy d) p) = (Ok sig, e'))
  (Htrade : execute_trade g sig p (simulator d) = (Ok m, s')) :
  trade_dashboard g ({| fetched := Fetched p; quit_key := key |} :: world) d
  = after_tick g {| fetched := Fetched p; quit_key := key |} world
      {| strategy := e'; simulator := s'; trade_message_var := Some m;
         screen := screen d ++ [frame_of p s' m] |}.
Proof.
  exact (tick_ok g p key world d sig e' m s' Hprice Hsignal Htrade).
Qed.

Lemma tick_shows_state_after_trade_witness :
  trade_dashboard module_globals
    ({| fetched := Fetched 100%float; quit_key := true |} :: steady_rise)
    (dashboard_init 230%float)
  = after_tick module_globals
      {| fetched := Fetched 100%float; quit_key := true |} steady_rise
      {| strategy := observe TradeEngine_init 100%float;
         simulator := fresh_portfolio;
         trade_message_var := Some NoTradeExecuted;
         screen := [] ++ [frame_of 100%float fresh_portfolio NoTradeExecuted] |}.
Proof.
  apply (tick_shows_state_after_trade module_globals 100%float true steady_rise
           (dashboard_init 230%float) "HOLD"%string
           (observe TradeEngine_init 100%float) NoTradeExecuted
           fresh_portfolio); reflexivity.
Defined.

(** One pass with a usable price and a trade that raises. *)
Lemma tick_raise
  (g : namespace) (p : float) (key : bool) (world : list tick) (d : dashboard)
  (sig : string) (e' : TradeEngine) (e : exn) (s' : PaperTradeSimulator) :
  PrimFloat.eqb p 0%float = false ->
  generate_signal (observe (strategy d) p) = (Ok sig, e') ->
  execute_trade g sig p (simulator d) = (Raise e, s') ->
  trade_dashboard g ({| fetched := Fetched p; quit_key := key |} :: world) d
  = (Raise e,
     {| strategy := e'; simulator := simulator d;
        trade_message_var := trade_message_var d; screen := screen d |}).
Proof.
  intros Hprice Hsignal Htrade.
  destruct (execute_trade_raises _ _ _ _ _ _ Htrade) as [-> _].
  rewrite trade_dashboard_cons. simpl get_price. simpl fetched.
  unfold truthy. rewrite Hprice. simpl negb. cbv iota.
  remember (draw_ui (Some p)) as draw eqn:Hdraw.
  remember (after_tick g {| fetched := Fetched p; quit_key := key |} world)
    as next eqn:Hnext.
  unfold on_strategy, on_simulator, assign_trade_message. run.
  pose proof (update_price_Ok p (strategy d)) as Hup.
  unfold observe in Hsignal.
  destruct (update_price p (strategy d)) as [r e1]. simpl in Hup, Hsignal.
  subst r. simpl. rewrite Hsignal. simpl. rewrite Htrade. reflexivity.
Qed.

(** X13. When [execute_trade] raises inside a pass of the loop, the
    exception leaves [trade_dashboard] at once: the engine has already taken
    in the price and evaluated (so its window, and after a BUY signal its
    [last_buy_price], have moved on), while the portfolio, the last message
    and the screen are as before the pass, and the remaining ticks are never
    read. *)
Theorem trade_exception_ends_loop
  (g : namespace) (p : float) (key : bool) (world : list tick) (d : dashboard)
  (sig : string) (e' : TradeEngine) (e : exn) (s' : PaperTradeSimulator)
  (Hprice : PrimFloat.eqb p 0%float = false)
  (Hsignal : generate_signal (observe (strategy d) p) = (Ok sig, e'))
  (Htrade : execute_trade g sig p (simulator d) = (Raise e, s')) :
  trade_dashboard g ({| fetched := Fetched p; quit_key := key |} :: world) d
  = (Raise e,
     {| strategy := e'; simulator := simulator d;
        trade_message_var := trade_message_var d; screen := screen d |}).
Proof.
  exact (tick_raise g p key world d sig e' e s' Hprice Hsignal Htrade).
Qed.

Lemma trade_exception_ends_loop_witness :
  trade_dashboard module_globals
    ({| fetched := Fetched 100%float; quit_key := false |} :: steady_rise)
    dashboard_before_dip
  = (Raise (NameError "short_ema"),
     {| strategy := observe (strategy dashboard_before_dip) 100%float;
        simulator := simulator dashboard_before_dip;
        trade_message_var := trade_message_var dashboard_before_dip;
        screen := screen dashboard_before_dip |}).
Proof.
  apply (trade_exception_ends_loop module_globals 100%float false steady_rise
           dashboard_before_dip "SELL"%string
           (observe (strategy dashboard_before_dip) 100%float)
           (NameError "short_ema") (simulator dashboard_before_dip)).
  - reflexivity.
  - vm_compute. reflexivity.
  - vm_compute. reflexivity.
Defined.

(** One pass whose fetched price equals zero. *)
Lemma tick_zero
  (g : namespace) (p : float) (key : bool) (world : list tick) (d : dashboard) :
  PrimFloat.eqb p 0%float = true ->
  trade_dashboard g ({| fetched := Fetched p; quit_key := key |} :: world) d
  = match trade_message_var d with
    | Some m =>
        after_tick g {| fetched := Fetched p; quit_key := key |} world
          {| strategy := strategy d; simulator := simulator d;
             trade_message_var := Some m;
             screen := screen d ++ [frame_of p (simulator d) m] |}
    | None => (Raise (UnboundLocalError "trade_message"), d)
    end.
Proof.
  intros Hzero.
  rewrite trade_dashboard_cons. simpl get_price. simpl fetched.
  unfold truthy. rewrite Hzero. simpl negb. cbv iota.
  remember (after_tick g {| fetched := Fetched p; quit_key := key |} world)
    as next eqn:Hnext.
  destruct (trade_message_var d) as [m|] eqn:Hm.
  - unfold bind at 1 2. unfold ret at 1.
    rewrite (draw_ui_message p m d Hm). reflexivity.
  - unfold bind at 1 2. unfold ret at 1.
    rewrite (draw_ui_unbound p d Hm). reflexivity.
Qed.

(** X14. A fetched price equal to zero is treated as no price at all: the
    engine does not observe it and no trade is attempted.  If an earlier
    pass left a message, a frame is drawn showing the zero price, the
    unchanged portfolio and that stale message, and the loop goes on; if
    none did (the first pass), reading [trade_message] raises
    [UnboundLocalError] and the loop ends with nothing changed. *)
Theorem zero_price_skips_tick
  (g : namespace) (p : float) (key : bool) (world : list tick) (d : dashboard)
  (Hzero : PrimFloat.eqb p 0%float = true) :
  trade_dashboard g ({| fetched := Fetched p; quit_key := key |} :: world) d
  = match trade_message_var d with
    | Some m =>
        after_tick g {| fetched := Fetched p; quit_key := key |} world
          {| strategy := strategy d; simulator := simulator d;
             trade_message_var := Some m;
             screen := screen d ++ [frame_of p (simulator d) m] |}
    | None => (Raise (UnboundLocalError "trade_message"), d)
    end.
Proof. exact (tick_zero g p key world d Hzero). Qed.

Lemma zero_price_skips_tick_witness :
  trade_dashboard module_globals
    ({| fetched := Fetched 0%float; quit_key := false |} :: steady_rise)
    (dashboard_init 230%float)
  = (Raise (UnboundLocalError "trade_message"), dashboard_init 230%float)
  /\ trade_dashboard module_globals
       [{| fetched := Fetched 0%float; quit_key := true |}]
       dashboard_before_dip
     = (Ok Quit,
        {| strategy := strategy dashboard_before_dip;
           simulator := simulator dashboard_before_dip;
           trade_message_var := Some NoTradeExecuted;
           screen := screen dashboard_before_dip
                     ++ [frame_of 0%float (simulator dashboard_before_dip)
                           NoTradeExecuted] |}).
Proof.
  split.
  - apply (zero_price_skips_tick module_globals 0%float false steady_rise
             (dashboard_init 230%float)). reflexivity.
  - apply (zero_price_skips_tick module_globals 0%float true []
             dashboard_before_dip). reflexivity.
Defined.

(** ** trade_dashboard: whole runs *)

Lemma no_trade_while_warming_up
  (g : namespace) (ps : list float) (d : dashboard) :
  List.length (prices (strategy d)) + List.length ps < 16 ->
  all_truthy ps = true ->
  trade_dashboard g (feed ps) d
  = (Ok StillRunning,
     {| strategy := {| prices := prices (strategy d) ++ ps;
                       last_buy_price := last_buy_price (strategy d) |};
        simulator := simulator d;
        trade_message_var :=
          match ps with
          | [] => trade_message_var d
          | _ :: _ => Some NoTradeExecuted
          end;
        screen := screen d
                  ++ map (fun p => frame_of p (simulator d) NoTradeExecuted)
                         ps |}).
Proof.
  revert d. induction ps as [|p ps IH]; intros d Hfew Htruthy.
  - simpl. rewrite !app_nil_r. unfold ret. destruct d as [[] ? ? ?].
    reflexivity.
  - simpl in Htruthy. apply andb_prop in Htruthy as [Hp Hps].
    apply negb_true_iff in Hp. simpl in Hfew.
    assert (prices (observe (strategy d) p) = prices (strategy d) ++ [p])
      as Hobs by (apply observe_short; lia).
    assert (generate_signal (observe (strategy d) p)
            = (Ok "HOLD"%string, observe (strategy d) p)) as Hsig.
    { apply generate_signal_short. rewrite Hobs, length_app. simpl. lia. }
    change (feed (p :: ps))
      with ({| fetched := Fetched p; quit_key := false |} :: feed ps).
    rewrite (tick_ok g p false (feed ps) d "HOLD"%string
               (observe (strategy d) p) NoTradeExecuted (simulator d)
               Hp Hsig eq_refl).
    unfold after_tick. simpl quit_key. cbv iota.
    rewrite IH.
    + cbn [strategy simulator trade_message_var screen].
      rewrite Hobs, observe_last_buy_price, <- !app_assoc. simpl.
      now destruct ps.
    + cbn [strategy]. rewrite Hobs, length_app. simpl. lia.
    + exact Hps.
Qed.

(** X15. From a state whose engine will still hold fewer than 16 prices
    afterwards, feeding the loop prices that are all different from zero
    never trades: the run goes through every tick, the portfolio is
    untouched, the engine has taken in the prices in order without setting
    [last_buy_price], and the screen gains one frame per tick, each showing
    that tick's price, the unchanged portfolio and "No trade executed". *)
Theorem first_ticks_never_trade
  (g : namespace) (ps : list float) (d : dashboard)
  (Hfew : List.length (prices (strategy d)) + List.length ps < 16)
  (Hprices : all_truthy ps = true) :
  trade_dashboard g (feed ps) d
  = (Ok StillRunning,
     {| strategy := {| prices := prices (strategy d) ++ ps;
                       last_buy_price := last_buy_price (strategy d) |};
        simulator := simulator d;
        trade_message_var :=
          match ps with
          | [] => trade_message_var d
          | _ :: _ => Some NoTradeExecuted
          end;
        screen := screen d
                  ++ map (fun p => frame_of p (simulator d) NoTradeExecuted)
                         ps |}).
Proof. exact (no_trade_while_warming_up g ps d Hfew Hprices). Qed.

Lemma first_ticks_never_trade_witness :
  trade_dashboard module_globals (feed (ramp 15)) (dashboard_init 230%float)
  = (Ok StillRunning,
     {| strategy := {| prices := [] ++ ramp 15; last_buy_price := None |};
        simulator := fresh_portfolio;
        trade_message_var := Some NoTradeExecuted;
        screen := [] ++ map (fun p => frame_of p fresh_portfolio
                                        NoTradeExecuted) (ramp 15) |}).
Proof.
  apply (first_ticks_never_trade module_globals (ramp 15)
           (dashboard_init 230%float)).
  - vm_compute. lia.
  - reflexivity.
Defined.

(** What one pass does to the run, whatever the tick: it raises with the
    screen as it was, or it fetched a price, drew one frame and handed over
    to the rest of the loop. *)
Lemma tick_outcome (g : namespace) (t : tick) (world : list tick)
  (d : dashboard) :
  (exists e d1,
      trade_dashboard g (t :: world) d = (Raise e, d1)
      /\ screen d1 = screen d)
  \/ (exists d1,
        fetched_ok t
        /\ List.length (screen d1) = S (List.length (screen d))
        /\ trade_dashboard g (t :: world) d = after_tick g t world d1).
Proof.
  destruct t as [[p|] key].
  - destruct (PrimFloat.eqb p 0%float) eqn:Hp.
    + rewrite (tick_zero g p key world d Hp).
      destruct (trade_message_var d) as [m|].
      * right. eexists. split; [now exists p|]. split; [|reflexivity].
        cbn [screen]. rewrite length_app. simpl. lia.
      * left. exists (UnboundLocalError "trade_message"), d. auto.
    + destruct (generate_signal_Ok (observe (strategy d) p)) as (sig & Hsig).
      destruct (generate_signal (observe (strategy d) p)) as [r e'] eqn:Hgen.
      simpl in Hsig. subst r.
      destruct (execute_trade g sig p (simulator d)) as [[m|e] s'] eqn:Htr.
      * right. eexists. split; [now exists p|]. split.
        2:{ apply (tick_ok g p key world d sig e' m s' Hp Hgen Htr). }
        cbn [screen]. rewrite length_app. simpl. lia.
      * left. rewrite (tick_raise g p key world d sig e' e s' Hp Hgen Htr).
        eexists _, _. split; [reflexivity|]. reflexivity.
  - left. exists TypeError, d. split; reflexivity.
Qed.

(** X16. A run of the loop that ends without an exception has drawn
    exactly one frame for every tick it consumed, and every one of those
    ticks fetched a price.  If it is still running, it consumed all the
    ticks and nobody pressed [q]; if it quit, it stopped at the first tick
    with [q] pressed and never read the ticks after it. *)
Theorem completed_run_frames
  (g : namespace) (world : list tick) (d d' : dashboard) (r : loop_end)
  (Hrun : trade_dashboard g world d = (Ok r, d')) :
  exists consumed rest,
    world = consumed ++ rest
    /\ List.length (screen d')
       = List.length (screen d) + List.length consumed
    /\ Forall fetched_ok consumed
    /\ match r with
       | StillRunning =>
           rest = [] /\ Forall (fun t => quit_key t = false) consumed
       | Quit =>
           exists front t,
             consumed = front ++ [t] /\ quit_key t = true
             /\ Forall (fun t => quit_key t = false) front
       end.
Proof.
  revert d Hrun. induction world as [|t world IH]; intros d Hrun.
  - simpl in Hrun. injection Hrun as <- <-.
    exists [], []. repeat split; auto; simpl; lia.
  - destruct (tick_outcome g t world d)
      as [(e & d1 & E & _)|(d1 & Hfetch & Hlen & E)];
      rewrite E in Hrun; [discriminate|].
    unfold after_tick in Hrun. destruct (quit_key t) eqn:Hq.
    + injection Hrun as <- <-.
      exists [t], world. split; [reflexivity|].
      split; [simpl; lia|]. split; [auto|].
      exists [], t. auto.
    + destruct (IH d1 Hrun) as (consumed & rest & -> & Hn & Hall & Hr).
      exists (t :: consumed), rest. split; [reflexivity|].
      split; [simpl; lia|]. split; [auto|].
      destruct r.
      * destruct Hr as (front & t' & -> & Hq' & Hfront).
        exists (t :: front), t'. auto.
      * destruct Hr as [-> Hquiet]. auto.
Qed.

Lemma completed_run_frames_witness :
  exists consumed rest,
    steady_rise = consumed ++ rest
    /\ List.length
         (screen (snd (trade_dashboard module_globals steady_rise
                         (dashboard_init 230%float))))
       = List.length (screen (dashboard_init 230%float))
         + List.length consumed
    /\ Forall fetched_ok consumed
    /\ (rest = [] /\ Forall (fun t => quit_key t = false) consumed).
Proof.
  apply (completed_run_frames module_globals steady_rise
           (dashboard_init 230%float)
           (snd (trade_dashboard module_globals steady_rise
                   (dashboard_init 230%float)))
           StillRunning).
  vm_compute. reflexivity.
Defined.
